(** * Tracer: ray/sphere intersection of [SphereSurface]

    A shallow embedding of [src/sphere_surface.py] (the self-contained
    spherical mirror: [set_radius], [register_incoming], [get_outgoing]) and of
    [tracer/sphere_surface.py] ([set_radius], [get_normal], [get_ABC]).

    The Python code is written once, over an interface [Number] of the scalar
    operations it uses.  Two instances are given: IEEE binary64 ([float64],
    what numpy computes with, executable) and the real numbers (exact
    arithmetic, in which the geometric statements are proved). *)

From Stdlib Require Import String List Bool ZArith Lia.
From Stdlib Require Import Reals Lra Psatz.
From Stdlib Require PrimFloat Uint63.
Import ListNotations.

Set Implicit Arguments.

(** ** Scalars *)

Class Number (T : Type) : Type := {
  of_Z  : Z -> T;          (* the integer literals of the source: 0, 2, 4, -1, 1 *)
  nadd  : T -> T -> T;
  nsub  : T -> T -> T;
  nmul  : T -> T -> T;
  ndiv  : T -> T -> T;
  nopp  : T -> T;
  nsqrt : T -> T;          (* N.sqrt *)
  nlt   : T -> T -> bool;  (* x < y *)
  nle   : T -> T -> bool   (* x <= y *)
}.

Declare Scope num_scope.
Delimit Scope num_scope with num.
Infix "+" := nadd : num_scope.
Infix "-" := nsub : num_scope.
Infix "*" := nmul : num_scope.
Infix "/" := ndiv : num_scope.
Notation "- x" := (nopp x) : num_scope.
Infix "<?" := nlt : num_scope.
Infix "<=?" := nle : num_scope.

(** numpy's float64. *)
Definition float_of_Z (z : Z) : PrimFloat.float :=
  match z with
  | Zneg p => PrimFloat.opp (PrimFloat.of_uint63 (Uint63.of_Z (Zpos p)))
  | _ => PrimFloat.of_uint63 (Uint63.of_Z z)
  end.

#[export] Instance float64 : Number PrimFloat.float := {|
  of_Z := float_of_Z;
  nadd := PrimFloat.add;
  nsub := PrimFloat.sub;
  nmul := PrimFloat.mul;
  ndiv := PrimFloat.div;
  nopp := PrimFloat.opp;
  nsqrt := PrimFloat.sqrt;
  nlt := PrimFloat.ltb;
  nle := PrimFloat.leb
|}.

(** Exact arithmetic. *)
Definition Rltb (x y : R) : bool := if Rlt_dec x y then true else false.
Definition Rleb (x y : R) : bool := if Rle_dec x y then true else false.

#[export] Instance real : Number R := {|
  of_Z := IZR;
  nadd := Rplus;
  nsub := Rminus;
  nmul := Rmult;
  ndiv := Rdiv;
  nopp := Ropp;
  nsqrt := sqrt;
  nlt := Rltb;
  nle := Rleb
|}.

(** ** Exceptions *)

Inductive exn : Type :=
| NameError (name : string)
| ValueError (msg : string)
| IndexError (msg : string)
| AttributeError (attr : string).

Definition result (A : Type) : Type := (exn + A)%type.
Definition ret {A} (a : A) : result A := inr a.
Definition raise {A} (e : exn) : result A := inl e.
Definition bind {A B} (m : result A) (k : A -> result B) : result B :=
  match m with
  | inl e => inl e
  | inr a => k a
  end.

Declare Scope result_scope.
Delimit Scope result_scope with result.
Notation "x <- m ;; k" := (bind m (fun x => k))
  (at level 61, m at next level, right associativity) : result_scope.

(** The builtin exception classes the model knows. *)
Definition builtins (name : string) : option (string -> exn) :=
  if String.eqb name "ValueError" then Some ValueError
  else if String.eqb name "IndexError" then Some IndexError
  else if String.eqb name "AttributeError" then Some AttributeError
  else if String.eqb name "NameError" then Some NameError
  else None.

(** [raise name(msg)].  The name is evaluated before anything is raised: the
    modules bind only their imports and [SphereSurface] at top level, so an
    exception name resolves in the builtins, and a name that is bound nowhere
    raises [NameError]. *)
Definition raise_call {A} (name msg : string) : result A :=
  match builtins name with
  | Some mk => raise (mk msg)
  | None => raise (NameError name)
  end.

(** ** Arrays *)

Section Arrays.
Context {T : Type} {num : Number T}.
Local Open Scope num_scope.

(** A column of a 3xN array (shape [(3,)]). *)
Record vec3 : Type := Vec { vx : T; vy : T; vz : T }.

Definition vadd (a b : vec3) : vec3 := Vec (vx a + vx b) (vy a + vy b) (vz a + vz b).
Definition vsub (a b : vec3) : vec3 := Vec (vx a - vx b) (vy a - vy b) (vz a - vz b).
Definition vmul (a b : vec3) : vec3 := Vec (vx a * vx b) (vy a * vy b) (vz a * vz b).
(** [a * s] and [a / s] for a scalar [s]. *)
Definition vscale (a : vec3) (s : T) : vec3 := Vec (vx a * s) (vy a * s) (vz a * s).
Definition vdivs (a : vec3) (s : T) : vec3 := Vec (vx a / s) (vy a / s) (vz a / s).
(** [(a).sum(axis=0)] over the three rows. *)
Definition sum_axis0 (a : vec3) : T := vx a + vy a + vz a.
(** [N.vdot(a, b)]. *)
Definition vdot (a b : vec3) : T := sum_axis0 (vmul a b).
(** [N.linalg.norm(a)]. *)
Definition norm2 (a : vec3) : T := nsqrt (sum_axis0 (vmul a a)).

(** A 3x1 array as the cache stacks them: a column with contents, or what
    [N.empty([3,1])] allocates, whose contents are not defined. *)
Inductive column : Type :=
| empty_3x1
| col (v : vec3).

(** An entry of the returned [params] list: [N.inf] or a root. *)
Inductive param : Type :=
| inf
| finite (t : T).

(** [a[ray]] and [a[:,ray]]. *)
Definition getitem {A : Type} (a : list A) (ray : nat) : result A :=
  match nth_error a ray with
  | Some x => ret x
  | None => raise (IndexError "index out of bounds")
  end.

(** An elementwise operation on two arrays of [n] and [m] columns: numpy
    pairs the columns when [n = m], repeats the single column when [n] or
    [m] is 1, and refuses other shapes. *)
Definition broadcast {A B C : Type} (f : A -> B -> C) (a : list A) (b : list B)
  : result (list C) :=
  if Nat.eqb (length a) (length b) then ret (map (fun ab => f (fst ab) (snd ab)) (combine a b))
  else match a, b with
       | [x], _ => ret (map (f x) b)
       | _, [y] => ret (map (fun x => f x y) a)
       | _, _ => raise (ValueError "shape mismatch: objects cannot be broadcast to a single shape")
       end.

(** [N.hstack] of a list of 3x1 arrays: a 3xN array, kept as its columns.
    numpy refuses to concatenate an empty list. *)
Definition hstack (cols : list column) : result (list column) :=
  match cols with
  | [] => raise (ValueError "need at least one array to concatenate")
  | _ => ret cols
  end.

(** [a[:,selector]] for a boolean [selector]: the columns at its true
    entries.  numpy checks the length of the selector against the number of
    columns, except for an empty selector, which selects no column. *)
Fixpoint compress {A : Type} (selector : list bool) (a : list A) : list A :=
  match selector, a with
  | true :: s, x :: a' => x :: compress s a'
  | false :: s, _ :: a' => compress s a'
  | _, _ => []
  end.

Definition bool_index {A : Type} (a : list A) (selector : list bool) : result (list A) :=
  if (Nat.eqb (length selector) 0 || Nat.eqb (length selector) (length a))%bool
  then ret (compress selector a)
  else raise (IndexError "boolean index did not match indexed array").

(** The number of true entries of a selector. *)
Definition count_true (selector : list bool) : nat :=
length (filter (fun b => b) selector).

(** ** The ray bundle *)

(** Modelled from the spec: [ray_bundle.py] is not part of the sources.  A
    bundle exposes its origin vertices (3xN), its direction vectors (3xN) and
    a ray count; [set_vertices] stores a vertex array on it.  [V] is the type
    of a vertex column. *)
Record RayBundle (V : Type) : Type := mkRayBundle {
  get_vertices : list V;
  get_directions : list vec3
}.

Definition get_num_rays {V} (b : RayBundle V) : nat := length (get_vertices b).

Definition set_vertices {V W} (b : RayBundle V) (vert : list W) : RayBundle W :=
  mkRayBundle vert (get_directions b).
End Arrays.

Arguments vec3 T : clear implicits.
Arguments column T : clear implicits.
Arguments param T : clear implicits.
Arguments RayBundle T V : clear implicits.
Arguments empty_3x1 {T}.
Arguments inf {T}.

(** ** [src/sphere_surface.py]: the spherical mirror *)

Section SphereSurface.
Context {T : Type} {num : Number T}.
Local Open Scope num_scope.
Local Open Scope result_scope.

(** The boundary shape collaborator: [in_bounds] is called with the one
    candidate column and entry [0] of its answer is read. *)
Record BoundaryShape : Type := { in_bounds : vec3 T -> bool }.

(** The attributes of a [SphereSurface].  The last three are the cache
    [register_incoming] leaves; they do not exist before its first call. *)
Record SphereSurface : Type := mkSphereSurface {
  _rad : T;
  _center : vec3 T;
  _boundary : BoundaryShape;
  _abs : T;
  _polar : string;
  _ref_index : T;
  _vertices : option (list (column T));
  _current_bundle : option (RayBundle T (vec3 T));
  _norm : option (list (column T))
}.

Definition get_radius (self : SphereSurface) : T := _rad self.
Definition get_center (self : SphereSurface) : vec3 T := _center self.
Definition get_ref_index (self : SphereSurface) : T := _ref_index self.

Definition set_radius (self : SphereSurface) (rad : T) : result SphereSurface :=
  if rad <=? of_Z 0
  then raise_call "ValuError" "Radius must be positive"
  else ret (mkSphereSurface rad (_center self) (_boundary self) (_abs self)
              (_polar self) (_ref_index self)
              (_vertices self) (_current_bundle self) (_norm self)).

(** [self] is the object as the base class initialiser leaves it
    ([UniformSurface.__init__], not part of the sources). *)
Definition __init__ (self : SphereSurface) (center : vec3 T) (absorptivity : T)
    (polar : string) (n : T) (radius : T) (boundary : BoundaryShape)
  : result SphereSurface :=
  self <- set_radius self radius ;;
  ret (mkSphereSurface (_rad self) center boundary absorptivity polar n
         (_vertices self) (_current_bundle self) (_norm self)).

(** The entries of [A], [B], [C] and [delta] for one ray. *)
Definition quad_A (d_ray : vec3 T) : T := sum_axis0 (vmul d_ray d_ray).
Definition quad_B (c d_ray v_ray : vec3 T) : T :=
  of_Z 2 * sum_axis0 (vmul d_ray (vsub v_ray c)).
Definition quad_C (c : vec3 T) (rad : T) (v_ray : vec3 T) : T :=
  sum_axis0 (vmul (vsub v_ray c) (vsub v_ray c)) - rad * rad.
Definition quad_delta (A_ray B_ray C_ray : T) : T :=
  B_ray * B_ray - of_Z 4 * A_ray * C_ray.

(** An entry of [hits]: [(-B[ray] + sign*N.sqrt(delta[ray]))/(2*A[ray])] for
    [sign] in [N.r_[-1, 1]]. *)
Definition root (sign : Z) (A_ray B_ray delta_ray : T) : T :=
  (- B_ray + of_Z sign * nsqrt delta_ray) / (of_Z 2 * A_ray).

(** What the loop appends for a ray without intersection. *)
Definition miss : param T * column T * column T := (inf, empty_3x1, empty_3x1).

(** [N.where(hits > 0)[0]]: the indices of the positive roots. *)
Definition where_positive (hits : T * T) : list nat :=
  (if of_Z 0 <? fst hits then [0%nat] else []) ++
  (if of_Z 0 <? snd hits then [1%nat] else []).

(** [N.argmin(hits)]: the index of the smallest entry, the first one on a
    tie. *)
Definition argmin (hits : T * T) : nat :=
  if snd hits <? fst hits then 1%nat else 0%nat.

(** [a[param]] on an array of two entries. *)
Definition item {A : Type} (param : nat) (a : A * A) : A :=
  match param with
  | O => fst a
  | S _ => snd a
  end.

(** The geometry of one ray with a discriminant that is not negative: the
    selected root, its point and the normal there; [None] where the loop
    continues with a miss. *)
Definition geometric_hit (c vertex d_ray : vec3 T) (A_ray B_ray delta_ray : T)
  : option (T * vec3 T * vec3 T) :=
  let hits := (root (-1) A_ray B_ray delta_ray, root 1 A_ray B_ray delta_ray) in
  let coords := (vadd vertex (vscale d_ray (fst hits)),
                 vadd vertex (vscale d_ray (snd hits))) in
  let is_positive := where_positive hits in
  match is_positive with
  | [] => None                            (* both are negative: a miss *)
  | first :: _ =>
      let param :=
        if Nat.eqb (length is_positive) 2
        then argmin hits                  (* both are positive: the smaller one *)
        else first in                     (* otherwise the positive one *)
      let verts := item param coords in
      (* the normal, by whether an inner or an outer surface is hit *)
      let dot := vdot (vsub c verts) d_ray in
      let normal := if dot <=? of_Z 0 then vsub verts c else vsub c verts in
      Some (item param hits, verts, normal)
  end.

(** The boundary check on a geometric hit, and what is appended. *)
Definition hit_record (boundary : BoundaryShape) (hit : option (T * vec3 T * vec3 T))
  : param T * column T * column T :=
  match hit with
  | None => miss
  | Some (t, verts, normal) =>
      if in_bounds boundary verts
      then (finite t, col verts, col normal)
      else miss
  end.

(** The body of [for ray in xrange(n)]: what is appended to [params],
    [vertices] and [norm]. *)
Definition ray_body (self : SphereSurface) (c : vec3 T) (d v : list (vec3 T))
    (A B delta : list T) (ray : nat) : result (param T * column T * column T) :=
  vertex <- getitem v ray ;;
  delta_ray <- getitem delta ray ;;
  if delta_ray <? of_Z 0 then ret miss
  else
    B_ray <- getitem B ray ;;
    A_ray <- getitem A ray ;;
    d_ray <- getitem d ray ;;
    ret (hit_record (_boundary self)
           (geometric_hit c vertex d_ray A_ray B_ray delta_ray)).

(** The loop, with the three lists it appends to. *)
Fixpoint for_rays (body : nat -> result (param T * column T * column T))
    (rays : list nat) (acc : list (param T) * list (column T) * list (column T))
  : result (list (param T) * list (column T) * list (column T)) :=
  match rays with
  | [] => ret acc
  | ray :: rest =>
      r <- body ray ;;
      let '(params, vertices, norm) := acc in
      let '(t, vert, nrm) := r in
      for_rays body rest (params ++ [t], vertices ++ [vert], norm ++ [nrm])
  end.

Definition register_incoming (self : SphereSurface) (ray_bundle : RayBundle T (vec3 T))
  : result (list (param T) * SphereSurface) :=
  let d := get_directions ray_bundle in
  let v := get_vertices ray_bundle in
  let n := get_num_rays ray_bundle in
  let c := get_center self in
  (* Solve the equations to find the intersection point *)
  let A := map quad_A d in
  B <- broadcast (quad_B c) d v ;;
  let C := map (quad_C c (get_radius self)) v in
  AC <- broadcast (fun A_ray C_ray => of_Z 4 * A_ray * C_ray) A C ;;
  delta <- broadcast (fun B_ray AC_ray => B_ray * B_ray - AC_ray) B AC ;;
  lists <- for_rays (ray_body self c d v A B delta) (seq 0 n) ([], [], []) ;;
  let '(params, vertices, norm) := lists in
  (* Storage for later reference *)
  vertices' <- hstack vertices ;;
  norm' <- hstack norm ;;
  ret (params,
       mkSphereSurface (_rad self) (_center self) (_boundary self) (_abs self)
         (_polar self) (_ref_index self)
         (Some vertices') (Some ray_bundle) (Some norm')).

(** Reading a cache attribute that no call has set yet. *)
Definition getattr {A : Type} (name : string) (a : option A) : result A :=
  match a with
  | Some x => ret x
  | None => raise (AttributeError name)
  end.

Section Outgoing.
(** The optics collaborator ([optics.py] is not part of the sources):
    [Optics(bundle, normals, selector).fresnel(polar, absorptivity, n)]. *)
Variable fresnel :
  RayBundle T (vec3 T) -> list (column T) -> list bool ->
  string -> T -> T -> RayBundle T (column T).

Definition get_outgoing (self : SphereSurface) (selector : list bool)
  : result (RayBundle T (column T)) :=
  current_bundle <- getattr "_current_bundle" (_current_bundle self) ;;
  norm <- getattr "_norm" (_norm self) ;;
  let outg := fresnel current_bundle norm selector
                (_polar self) (_abs self) (_ref_index self) in
  (* the vertices twice: the rays have split into the refracted and the
     reflected portions *)
  vertices <- getattr "_vertices" (_vertices self) ;;
  selected <- bool_index vertices selector ;;
  ret (set_vertices outg (selected ++ selected)).
End Outgoing.

(** *** One ray at a time *)

(** The root [t] of a ray with its point and the normal there, as
    [geometric_hit] returns them for the root it selects. *)
Definition hit_at (c v_ray d_ray : vec3 T) (t : T) : T * vec3 T * vec3 T :=
  let verts := vadd v_ray (vscale d_ray t) in
  (t, verts,
   if vdot (vsub c verts) d_ray <=? of_Z 0 then vsub verts c else vsub c verts).

(** The geometric intersection of the ray with origin [v_ray] and direction
    [d_ray], the array entries of the loop body written out: [None] for a
    miss. *)
Definition geometry (self : SphereSurface) (v_ray d_ray : vec3 T)
  : option (T * vec3 T * vec3 T) :=
  let c := get_center self in
  let A_ray := quad_A d_ray in
  let B_ray := quad_B c d_ray v_ray in
  let delta_ray := quad_delta A_ray B_ray (quad_C c (get_radius self) v_ray) in
  if delta_ray <? of_Z 0 then None
  else geometric_hit c v_ray d_ray A_ray B_ray delta_ray.

(** The record of that ray. *)
Definition trace_ray (self : SphereSurface) (v_ray d_ray : vec3 T)
  : param T * column T * column T :=
  hit_record (_boundary self) (geometry self v_ray d_ray).

(** The records of a whole bundle, in bundle order. *)
Definition records (self : SphereSurface) (ray_bundle : RayBundle T (vec3 T))
  : list (param T * column T * column T) :=
  map (fun vd => trace_ray self (fst vd) (snd vd))
    (combine (get_vertices ray_bundle) (get_directions ray_bundle)).

(** A bundle whose two arrays have the same number of columns. *)
Definition well_formed (ray_bundle : RayBundle T (vec3 T)) : Prop :=
  length (get_vertices ray_bundle) = length (get_directions ray_bundle).

(** The object after a call: an exception leaves it as it was. *)
Definition after {A : Type} (self : SphereSurface) (r : result (A * SphereSurface))
  : SphereSurface :=
  match r with
  | inl _ => self
  | inr (_, self') => self'
  end.

(** *** Inputs of the scenarios *)

Definition vecZ (x y z : Z) : vec3 T := Vec (of_Z x) (of_Z y) (of_Z z).
Definition accept_all : BoundaryShape := {| in_bounds := fun _ => true |}.
Definition reject_all : BoundaryShape := {| in_bounds := fun _ => false |}.

(** A sphere of radius [rad] centred at the origin, no call registered. *)
Definition sphere_at_origin (rad : Z) (boundary : BoundaryShape) : SphereSurface :=
  mkSphereSurface (of_Z rad) (vecZ 0 0 0) boundary (of_Z 0) "none" (of_Z 1)
    None None None.

Definition single_ray (v_ray d_ray : vec3 T) : RayBundle T (vec3 T) :=
  mkRayBundle [v_ray] [d_ray].

Definition empty_bundle : RayBundle T (vec3 T) := mkRayBundle [] [].

(** An optics collaborator that allocates two rays per selected ray. *)
Definition two_per_selected (bundle : RayBundle T (vec3 T)) (normals : list (column T))
    (selector : list bool) (polar : string) (absorptivity n : T)
  : RayBundle T (column T) :=
  let dirs := map (fun _ => vecZ 0 0 1) (filter (fun b => b) selector) in
  mkRayBundle [] (dirs ++ dirs).
End SphereSurface.

Arguments BoundaryShape T : clear implicits.
Arguments SphereSurface T : clear implicits.

(** ** [tracer/sphere_surface.py]: the sphere as a quadric *)

Module Quadric.
Section Quadric.
Context {T : Type} {num : Number T}.
Local Open Scope num_scope.

(** The attributes of the quadric [SphereSurface] that its own methods
    touch: the radius and the centre in the global frame ([_temp_loc[:3]]). *)
Record SphereSurface : Type := mkSphereSurface {
  _rad : T;
  _temp_loc : vec3 T
}.

Definition get_radius (self : SphereSurface) : T := _rad self.

Definition set_radius (self : SphereSurface) (rad : T) : result SphereSurface :=
  if rad <=? of_Z 0
  then raise_call "ValuError" "Radius must be positive"
  else ret (mkSphereSurface rad (_temp_loc self)).

Definition get_normal (dot : T) (hit c : vec3 T) : vec3 T :=
  let normal := if dot <=? of_Z 0 then vsub hit c else vsub c hit in
  vdivs normal (norm2 normal).

Definition get_ABC (self : SphereSurface) (ray_bundle : RayBundle T (vec3 T))
  : result (list T * list T * list T) :=
  let d := get_directions ray_bundle in
  let v := get_vertices ray_bundle in
  let c := _temp_loc self in
  let A := map quad_A d in
  bind (broadcast (quad_B c) d v)
    (fun B =>
       let C := map (quad_C c (get_radius self)) v in
       ret (A, B, C)).
End Quadric.
Arguments SphereSurface T : clear implicits.
End Quadric.

(** ** [tracer/sphere_surface.py]: the frame of the sphere *)

Module Frame.
Section Frame.
Context {T : Type} {num : Number T}.
Local Open Scope num_scope.

(** An array of shape [(4,)], and a 4x4 array by its rows. *)
Record vec4 : Type := Vec4 { h0 : T; h1 : T; h2 : T; h3 : T }.
Record mat4 : Type := Mat4 { row0 : vec4; row1 : vec4; row2 : vec4; row3 : vec4 }.

(** [N.hstack((loc, [1]))]. *)
Definition homogeneous (loc : vec3 T) : vec4 :=
  Vec4 (vx loc) (vy loc) (vz loc) (of_Z 1).

(** [N.dot(m, v)] of a 4x4 array and a vector: a row times the vector, for
    each row. *)
Definition dot4 (a b : vec4) : T :=
  h0 a * h0 b + h1 a * h1 b + h2 a * h2 b + h3 a * h3 b.
Definition mat_vec (m : mat4) (v : vec4) : vec4 :=
  Vec4 (dot4 (row0 m) v) (dot4 (row1 m) v) (dot4 (row2 m) v) (dot4 (row3 m) v).

(** [m[:,3] = v]. *)
Definition set_entry3 (row : vec4) (x : T) : vec4 := Vec4 (h0 row) (h1 row) (h2 row) x.
Definition set_column3 (m : mat4) (v : vec4) : mat4 :=
  Mat4 (set_entry3 (row0 m) (h0 v)) (set_entry3 (row1 m) (h1 v))
       (set_entry3 (row2 m) (h2 v)) (set_entry3 (row3 m) (h3 v)).

(** [m[:,3]]. *)
Definition column3 (m : mat4) : vec4 :=
  Vec4 (h3 (row0 m)) (h3 (row1 m)) (h3 (row2 m)) (h3 (row3 m)).

(** [v[:3]]. *)
Definition first3 (v : vec4) : vec3 T := Vec (h0 v) (h1 v) (h2 v).

(** The attributes [transform_frame] reads and writes: [_loc] and
    [_temp_frame] are the base class's, the location of the surface and its
    frame as a 4x4 array. *)
Record SphereSurface : Type := mkSphereSurface {
  _rad : T;
  _loc : vec3 T;
  _temp_loc : vec4;
  _temp_frame : mat4
}.

Definition transform_frame (self : SphereSurface) (transform : mat4) : SphereSurface :=
  let temp_loc := mat_vec transform (homogeneous (_loc self)) in
  (* Compatibility with the parent class *)
  mkSphereSurface (_rad self) (_loc self) temp_loc
    (set_column3 (_temp_frame self) temp_loc).

(** The attributes [get_ABC], [get_radius] and [set_radius] work on:
    [c = self._temp_loc[:3]]. *)
Definition quadric (self : SphereSurface) : Quadric.SphereSurface T :=
  Quadric.mkSphereSurface (_rad self) (first3 (_temp_loc self)).

(** The transform that moves by [(tx, ty, tz)], and the one that moves
    nothing. *)
Definition translation (tx ty tz : T) : mat4 :=
  Mat4 (Vec4 (of_Z 1) (of_Z 0) (of_Z 0) tx)
       (Vec4 (of_Z 0) (of_Z 1) (of_Z 0) ty)
       (Vec4 (of_Z 0) (of_Z 0) (of_Z 1) tz)
       (Vec4 (of_Z 0) (of_Z 0) (of_Z 0) (of_Z 1)).
Definition identity : mat4 := translation (of_Z 0) (of_Z 0) (of_Z 0).
End Frame.
Arguments vec4 T : clear implicits.
Arguments mat4 T : clear implicits.
Arguments SphereSurface T : clear implicits.
End Frame.

(** ** Callers *)

Section Callers.
Context {T : Type} {num : Number T}.

(** The selector a caller builds from the returned parameters: true where
    the parameter is not [N.inf]. *)
Definition is_hit (t : param T) : bool :=
  match t with
  | inf => false
  | finite _ => true
  end.

(** Two bundles stacked into one: the rays of the first, then the rays of
    the second. *)
Definition bundle_app (b1 b2 : RayBundle T (vec3 T)) : RayBundle T (vec3 T) :=
  mkRayBundle (get_vertices b1 ++ get_vertices b2)
    (get_directions b1 ++ get_directions b2).

(** A record is a miss, or a hit with both of its columns. *)
Definition consistent (r : param T * column T * column T) : Prop :=
  r = (inf, empty_3x1, empty_3x1) \/
  exists t verts normal, r = (finite t, col verts, col normal).
End Callers.

(** * Properties *)

(** ** The comparisons of the exact instance *)

Lemma Rltb_lt (x y : R) : Rltb x y = true <-> (x < y)%R.
Proof. unfold Rltb; destruct (Rlt_dec x y); split; intros; congruence || lra. Qed.

Lemma Rltb_ge (x y : R) : Rltb x y = false <-> (y <= x)%R.
Proof. unfold Rltb; destruct (Rlt_dec x y); split; intros; congruence || lra. Qed.

Lemma Rleb_le (x y : R) : Rleb x y = true <-> (x <= y)%R.
Proof. unfold Rleb; destruct (Rle_dec x y); split; intros; congruence || lra. Qed.

Lemma Rleb_gt (x y : R) : Rleb x y = false <-> (y < x)%R.
Proof. unfold Rleb; destruct (Rle_dec x y); split; intros; congruence || lra. Qed.

(** Decides the comparisons of a goal over the reals whose operands are
known well enough for [lra]. *)
Ltac cmp_true x y lem := replace (lem x y) with true by (symmetry; first [apply Rltb_lt | apply Rleb_le]; lra).
Ltac cmp_false x y lem := replace (lem x y) with false by (symmetry; first [apply Rltb_ge | apply Rleb_gt]; lra).
Ltac decide_cmp :=
repeat match goal with
| |- context [Rltb ?x ?y] => first [cmp_true x y Rltb | cmp_false x y Rltb]
| |- context [Rleb ?x ?y] => first [cmp_true x y Rleb | cmp_false x y Rleb]
end.

(** Unfolds the vector operations down to the arithmetic of the reals. *)
Ltac vec_arith :=
  unfold get_center, get_radius, sphere_at_origin;
  unfold quad_A, quad_B, quad_C, quad_delta, vdot, norm2, sum_axis0, vmul, vsub, vadd,
    vscale, vdivs, vecZ;
  cbn [vx vy vz _center _rad of_Z nadd nsub nmul ndiv nopp nsqrt real].

(** ** Arrays and the loop *)

Section Loop.
Context {T : Type} {num : Number T}.

Lemma nth_error_combine {A B : Type} (a : list A) (b : list B) (i : nat) (x : A) (y : B) :
  nth_error (combine a b) i = Some (x, y) <->
  nth_error a i = Some x /\ nth_error b i = Some y.
Proof.
  revert b i; induction a as [|a0 a IH]; intros [|b0 b] [|i]; simpl;
    try (split; [discriminate | intros [? ?]; discriminate]).
  - split; [intros [= -> ->]; auto | intros [[= ->] [= ->]]; reflexivity].
  - apply IH.
Qed.

Lemma broadcast_same_length {A B C : Type} (f : A -> B -> C) (a : list A) (b : list B) :
  length a = length b ->
  broadcast f a b = ret (map (fun ab => f (fst ab) (snd ab)) (combine a b)).
Proof.
  intros Hlen. unfold broadcast. rewrite Hlen, Nat.eqb_refl. reflexivity.
Qed.

Lemma getitem_ret {A : Type} (a : list A) (i : nat) (x : A) :
  nth_error a i = Some x -> getitem a i = ret x.
Proof. intros H; unfold getitem; rewrite H; reflexivity. Qed.

(** Where every body succeeds, the loop appends the results in order. *)
Lemma for_rays_ret (body : nat -> result (param T * column T * column T))
    (rays : list nat) (recs : list (param T * column T * column T)) :
  Forall2 (fun ray rec => body ray = ret rec) rays recs ->
  forall params vertices norm,
    for_rays body rays (params, vertices, norm) =
    ret (params ++ map (fun r => fst (fst r)) recs,
         vertices ++ map (fun r => snd (fst r)) recs,
         norm ++ map snd recs).
Proof.
  induction 1 as [|ray [[t vert] nrm] rays recs Hbody _ IH]; intros params vertices norm.
  - simpl. rewrite !app_nil_r. reflexivity.
  - simpl. rewrite Hbody. simpl. rewrite IH. rewrite <- !app_assoc. reflexivity.
Qed.

(** The loop returns as many entries as it has indices, in each list. *)
Lemma for_rays_length (body : nat -> result (param T * column T * column T))
    (rays : list nat) :
  forall params vertices norm params' vertices' norm',
    for_rays body rays (params, vertices, norm) = inr (params', vertices', norm') ->
    length params' = (length params + length rays)%nat /\
    length vertices' = (length vertices + length rays)%nat /\
    length norm' = (length norm + length rays)%nat.
Proof.
  induction rays as [|ray rays IH]; intros params vertices norm params' vertices' norm' Hrun.
  - simpl in Hrun. injection Hrun as <- <- <-. simpl. lia.
  - simpl in Hrun. destruct (body ray) as [e|[[t vert] nrm]]; simpl in Hrun; [discriminate|].
    apply IH in Hrun. rewrite !length_app in Hrun. simpl in *. lia.
Qed.

Lemma Forall2_seq {X : Type} (P : nat -> X -> Prop) (l : list X) :
  forall k, (forall j x, nth_error l j = Some x -> P (k + j)%nat x) ->
            Forall2 P (seq k (length l)) l.
Proof.
  induction l as [|x l IH]; intros k HP; simpl; constructor.
  - rewrite <- (Nat.add_0_r k). apply HP. reflexivity.
  - apply IH. intros j y Hj. rewrite Nat.add_succ_comm. apply HP. exact Hj.
Qed.

(** On a well-formed bundle the loop body at [ray] is [trace_ray] on the
    columns at [ray]. *)
Lemma ray_body_well_formed (self : SphereSurface T) (d v : list (vec3 T)) (ray : nat)
    (v_ray d_ray : vec3 T) :
  nth_error v ray = Some v_ray ->
  nth_error d ray = Some d_ray ->
  let c := get_center self in
  let A := map quad_A d in
  let B := map (fun dv => quad_B c (fst dv) (snd dv)) (combine d v) in
  let C := map (quad_C c (get_radius self)) v in
  let AC := map (fun ac => of_Z 4 * fst ac * snd ac)%num (combine A C) in
  let delta := map (fun bac => fst bac * fst bac - snd bac)%num (combine B AC) in
  ray_body self c d v A B delta ray = ret (trace_ray self v_ray d_ray).
Proof.
  intros Hv Hd c A B C AC delta.
  assert (HA : nth_error A ray = Some (quad_A d_ray)).
  { unfold A. rewrite nth_error_map, Hd. reflexivity. }
  assert (HB : nth_error B ray = Some (quad_B c d_ray v_ray)).
  { unfold B. rewrite nth_error_map.
    replace (nth_error (combine d v) ray) with (Some (d_ray, v_ray)); [reflexivity|].
    symmetry. apply nth_error_combine. auto. }
  assert (HC : nth_error C ray = Some (quad_C c (get_radius self) v_ray)).
  { unfold C. rewrite nth_error_map, Hv. reflexivity. }
  assert (HAC : nth_error AC ray
                = Some (of_Z 4 * quad_A d_ray * quad_C c (get_radius self) v_ray)%num).
  { unfold AC. rewrite nth_error_map.
    replace (nth_error (combine A C) ray)
      with (Some (quad_A d_ray, quad_C c (get_radius self) v_ray)); [reflexivity|].
    symmetry. apply nth_error_combine. auto. }
  assert (Hdelta : nth_error delta ray
                   = Some (quad_delta (quad_A d_ray) (quad_B c d_ray v_ray)
                             (quad_C c (get_radius self) v_ray))).
  { unfold delta. rewrite nth_error_map.
    replace (nth_error (combine B AC) ray)
      with (Some (quad_B c d_ray v_ray,
                  (of_Z 4 * quad_A d_ray * quad_C c (get_radius self) v_ray)%num));
      [reflexivity|].
    symmetry. apply nth_error_combine. auto. }
  unfold ray_body, trace_ray, geometry.
  rewrite (getitem_ret _ _ Hv), (getitem_ret _ _ Hdelta). simpl.
  fold c.
  destruct (nlt _ _); [reflexivity|].
  rewrite (getitem_ret _ _ HB), (getitem_ret _ _ HA), (getitem_ret _ _ Hd).
  reflexivity.
Qed.

(** [register_incoming] on a well-formed bundle that is not empty: the
    parameters and the cached columns are those of [records]. *)
Lemma register_incoming_well_formed (self : SphereSurface T)
    (ray_bundle : RayBundle T (vec3 T)) :
  well_formed ray_bundle ->
  (1 <= get_num_rays ray_bundle)%nat ->
  register_incoming self ray_bundle =
  ret (map (fun r => fst (fst r)) (records self ray_bundle),
       mkSphereSurface (_rad self) (_center self) (_boundary self) (_abs self)
         (_polar self) (_ref_index self)
         (Some (map (fun r => snd (fst r)) (records self ray_bundle)))
         (Some ray_bundle)
         (Some (map snd (records self ray_bundle)))).
Proof.
  destruct ray_bundle as [v d]. unfold well_formed, get_num_rays, records; simpl.
  intros Hwf Hn. unfold register_incoming; simpl.
  rewrite (broadcast_same_length _ d v) by auto. simpl.
  rewrite broadcast_same_length by (rewrite !length_map; auto). simpl.
  rewrite broadcast_same_length
    by (rewrite !length_map, !length_combine, !length_map; lia). simpl.
  rewrite for_rays_ret
    with (recs := map (fun vd => trace_ray self (fst vd) (snd vd)) (combine v d)).
  - simpl.
    destruct v as [|v0 v]; [simpl in Hn; lia|].
    destruct d as [|d0 d]; [discriminate|]. reflexivity.
  - unfold get_num_rays; simpl.
    replace (length v) with (length (combine v d))
      by (rewrite length_combine; lia).
    rewrite <- (length_map (fun vd => trace_ray self (fst vd) (snd vd)) (combine v d)).
    apply Forall2_seq. intros j rec Hj. simpl.
    rewrite nth_error_map in Hj.
    destruct (nth_error (combine v d) j) as [[v_ray d_ray]|] eqn:Hvd; [|discriminate].
    injection Hj as <-. apply nth_error_combine in Hvd as [Hv Hd].
    apply ray_body_well_formed; assumption.
Qed.

(** However the call ends, a returned list and the cached arrays have one
    entry per ray of the bundle. *)
Lemma register_incoming_lengths (self self' : SphereSurface T)
    (ray_bundle : RayBundle T (vec3 T)) (params : list (param T)) :
  register_incoming self ray_bundle = inr (params, self') ->
  length params = get_num_rays ray_bundle /\
  exists vertices norm,
    _vertices self' = Some vertices /\ _norm self' = Some norm /\
    _current_bundle self' = Some ray_bundle /\
    length vertices = get_num_rays ray_bundle /\
    length norm = get_num_rays ray_bundle.
Proof.
  unfold register_incoming.
  destruct (broadcast _ _ _) as [e|B]; simpl; [discriminate|].
  destruct (broadcast _ _ _) as [e|AC]; simpl; [discriminate|].
  destruct (broadcast _ _ _) as [e|delta]; simpl; [discriminate|].
  destruct (for_rays _ _ _) as [e|[[ps vs] ns]] eqn:Hloop; simpl; [discriminate|].
  apply for_rays_length in Hloop. rewrite length_seq in Hloop. simpl in Hloop.
  destruct vs as [|v0 vs]; simpl; [discriminate|].
  destruct ns as [|n0 ns]; simpl; [discriminate|].
  intros [= <- <-]. simpl. split; [tauto|].
  do 2 eexists. repeat split; tauto.
Qed.

(** The entries of one ray in what [register_incoming] returns and caches. *)
Lemma register_incoming_ray (self : SphereSurface T) (ray_bundle : RayBundle T (vec3 T))
    (ray : nat) (v_ray d_ray : vec3 T) :
  well_formed ray_bundle ->
  nth_error (get_vertices ray_bundle) ray = Some v_ray ->
  nth_error (get_directions ray_bundle) ray = Some d_ray ->
  exists params vertices norm self',
    register_incoming self ray_bundle = inr (params, self') /\
    _vertices self' = Some vertices /\ _norm self' = Some norm /\
    nth_error params ray = Some (fst (fst (trace_ray self v_ray d_ray))) /\
    nth_error vertices ray = Some (snd (fst (trace_ray self v_ray d_ray))) /\
    nth_error norm ray = Some (snd (trace_ray self v_ray d_ray)).
Proof.
  intros Hwf Hv Hd.
  assert (Hn : (1 <= get_num_rays ray_bundle)%nat).
  { unfold get_num_rays. assert (ray < length (get_vertices ray_bundle))%nat; [|lia].
    apply nth_error_Some. congruence. }
  rewrite (register_incoming_well_formed self Hwf Hn).
  do 4 eexists. split; [reflexivity|]. split; [reflexivity|]. split; [reflexivity|].
  assert (Hrec : nth_error (records self ray_bundle) ray = Some (trace_ray self v_ray d_ray)).
  { unfold records. rewrite nth_error_map.
    replace (nth_error (combine (get_vertices ray_bundle) (get_directions ray_bundle)) ray)
      with (Some (v_ray, d_ray)); [reflexivity|].
    symmetry. apply nth_error_combine. auto. }
  rewrite !nth_error_map, Hrec. auto.
Qed.

(** A call changes nothing that a call reads: the attributes the cache does
    not hold decide the result. *)
Lemma register_incoming_cache_irrelevant (self : SphereSurface T)
    (ray_bundle : RayBundle T (vec3 T)) vertices current_bundle norm :
  register_incoming
    (mkSphereSurface (_rad self) (_center self) (_boundary self) (_abs self)
       (_polar self) (_ref_index self) vertices current_bundle norm) ray_bundle =
  register_incoming self ray_bundle.
Proof. reflexivity. Qed.

(** What a geometric hit consists of. *)
Lemma geometric_hit_shape (c v_ray d_ray : vec3 T) (A_ray B_ray delta_ray t : T)
    (verts normal : vec3 T) :
  geometric_hit c v_ray d_ray A_ray B_ray delta_ray = Some (t, verts, normal) ->
  (t = root (-1) A_ray B_ray delta_ray \/ t = root 1 A_ray B_ray delta_ray) /\
  nlt (of_Z 0) t = true /\
  verts = vadd v_ray (vscale d_ray t) /\
  normal = if nle (vdot (vsub c verts) d_ray) (of_Z 0)
           then vsub verts c else vsub c verts.
Proof.
  unfold geometric_hit, where_positive, argmin; simpl.
  destruct (nlt (of_Z 0) (root (-1) A_ray B_ray delta_ray)) eqn:H1;
    destruct (nlt (of_Z 0) (root 1 A_ray B_ray delta_ray)) eqn:H2; simpl;
    try destruct (nlt (root 1 A_ray B_ray delta_ray) (root (-1) A_ray B_ray delta_ray));
    simpl; intros [= <- <- <-]; auto.
Qed.

(** A finite parameter comes with the columns of an accepted geometric hit. *)
Lemma trace_ray_finite (self : SphereSurface T) (v_ray d_ray : vec3 T) (t : T) :
  fst (fst (trace_ray self v_ray d_ray)) = finite t ->
  exists verts normal,
    trace_ray self v_ray d_ray = (finite t, col verts, col normal) /\
    geometry self v_ray d_ray = Some (t, verts, normal) /\
    in_bounds (_boundary self) verts = true.
Proof.
  unfold trace_ray.
  destruct (geometry self v_ray d_ray) as [[[t' verts] normal]|]; simpl; [|discriminate].
  destruct (in_bounds (_boundary self) verts) eqn:Hb; simpl; [|discriminate].
  intros [= ->]. exists verts, normal. auto.
Qed.

(** The geometry of a ray is a geometric hit on a discriminant that is not
    negative. *)
Lemma geometry_Some (self : SphereSurface T) (v_ray d_ray : vec3 T) hit :
  geometry self v_ray d_ray = Some hit ->
  let c := get_center self in
  let A_ray := quad_A d_ray in
  let B_ray := quad_B c d_ray v_ray in
  let delta_ray := quad_delta A_ray B_ray (quad_C c (get_radius self) v_ray) in
  nlt delta_ray (of_Z 0) = false /\
  geometric_hit c v_ray d_ray A_ray B_ray delta_ray = Some hit.
Proof.
  unfold geometry. destruct (nlt _ _); [discriminate | auto].
Qed.

(** The root selection of [geometric_hit], by the signs of the two roots. *)
Lemma geometric_hit_cases (c v_ray d_ray : vec3 T) (A_ray B_ray delta_ray : T) :
  let t1 := root (-1) A_ray B_ray delta_ray in
  let t2 := root 1 A_ray B_ray delta_ray in
  geometric_hit c v_ray d_ray A_ray B_ray delta_ray =
  match nlt (of_Z 0) t1, nlt (of_Z 0) t2 with
  | false, false => None
  | true, false => Some (hit_at c v_ray d_ray t1)
  | false, true => Some (hit_at c v_ray d_ray t2)
  | true, true => Some (hit_at c v_ray d_ray (if nlt t2 t1 then t2 else t1))
  end.
Proof.
  intros t1 t2. unfold geometric_hit, where_positive, argmin, hit_at; simpl.
  fold t1 t2.
  destruct (nlt (of_Z 0) t1); destruct (nlt (of_Z 0) t2); simpl; try reflexivity.
  destruct (nlt t2 t1); reflexivity.
Qed.
End Loop.

(** ** The radius *)

Section Radius.
Local Open Scope R_scope.

(** A radius that is not positive is refused, by both classes: the raise
statement fails on the unbound name [ValuError]. *)
Lemma set_radius_nonpositive (self : SphereSurface R) (q : Quadric.SphereSurface R) (rad : R) :
rad <= 0 ->
set_radius self rad = inl (NameError "ValuError") /\
Quadric.set_radius q rad = inl (NameError "ValuError").
Proof.
intros Hrad. unfold set_radius, Quadric.set_radius; cbn.
apply Rleb_le in Hrad. rewrite Hrad. split; reflexivity.
Qed.

(** A positive radius is stored as it is, and nothing else changes. *)
Lemma set_radius_positive (self : SphereSurface R) (q : Quadric.SphereSurface R) (rad : R) :
0 < rad ->
(exists self', set_radius self rad = inr self' /\ get_radius self' = rad /\
           _center self' = _center self /\ _vertices self' = _vertices self) /\
(exists q', Quadric.set_radius q rad = inr q' /\ Quadric.get_radius q' = rad).
Proof.
intros Hrad. unfold set_radius, Quadric.set_radius; cbn.
apply Rleb_gt in Hrad. rewrite Hrad. split; eexists; repeat split.
Qed.

(** The constructor fails as [set_radius] does, and builds nothing. *)
Lemma init_nonpositive (self : SphereSurface R) center absorptivity polar n radius boundary :
radius <= 0 ->
__init__ self center absorptivity polar n radius boundary = inl (NameError "ValuError").
Proof.
intros Hrad. unfold __init__.
destruct (set_radius_nonpositive self (Quadric.mkSphereSurface 0 center) Hrad) as [-> _].
reflexivity.
Qed.

Lemma init_positive (self : SphereSurface R) center absorptivity polar n radius boundary :
0 < radius ->
exists self', __init__ self center absorptivity polar n radius boundary = inr self' /\
          get_radius self' = radius /\ get_center self' = center.
Proof.
intros Hrad. unfold __init__, set_radius; cbn.
apply Rleb_gt in Hrad. rewrite Hrad. cbn. eexists; repeat split.
Qed.
End Radius.

(** C5: constructing a sphere with a radius that is not positive, or setting
such a radius, has to raise [ValueError].  At radius 0 both classes raise
[NameError] instead (the name in the raise statement is [ValuError]), in
exact arithmetic and in float64 alike. *)
Theorem set_radius_zero_raises_NameError :
(forall self : SphereSurface R,
set_radius self 0%R = inl (NameError "ValuError") /\
__init__ self (_center self) (_abs self) (_polar self) (_ref_index self) 0%R
(_boundary self) = inl (NameError "ValuError")) /\
(forall self : SphereSurface PrimFloat.float,
set_radius self (of_Z 0) = inl (NameError "ValuError")) /\
(forall q : Quadric.SphereSurface PrimFloat.float,
Quadric.set_radius q (of_Z 0) = inl (NameError "ValuError")) /\
(forall msg, NameError "ValuError" <> ValueError msg).
Proof.
repeat split.
- apply (set_radius_nonpositive self (Quadric.mkSphereSurface 0%R (_center self))). lra.
- apply init_nonpositive. lra.
- discriminate.
Qed.

(** ** The records of a call *)

Section Records.
Context {T : Type} {num : Number T}.

(** C3: a ray with a geometric intersection whose hit point the boundary
    shape rejects is recorded as [N.inf], and both of its cached columns are
    the placeholder: the same three entries as for any ray that misses the
    sphere. *)
Theorem boundary_rejection_records_miss (self : SphereSurface T)
    (ray_bundle : RayBundle T (vec3 T)) (ray : nat) (v_ray d_ray : vec3 T)
    (t : T) (verts normal : vec3 T) :
  well_formed ray_bundle ->
  nth_error (get_vertices ray_bundle) ray = Some v_ray ->
  nth_error (get_directions ray_bundle) ray = Some d_ray ->
  geometry self v_ray d_ray = Some (t, verts, normal) ->
  in_bounds (_boundary self) verts = false ->
  exists params vertices norm self',
    register_incoming self ray_bundle = inr (params, self') /\
    _vertices self' = Some vertices /\ _norm self' = Some norm /\
    nth_error params ray = Some inf /\
    nth_error vertices ray = Some empty_3x1 /\
    nth_error norm ray = Some empty_3x1 /\
    forall ray' v_ray' d_ray',
      nth_error (get_vertices ray_bundle) ray' = Some v_ray' ->
      nth_error (get_directions ray_bundle) ray' = Some d_ray' ->
      geometry self v_ray' d_ray' = None ->
      nth_error params ray' = nth_error params ray /\
      nth_error vertices ray' = nth_error vertices ray /\
      nth_error norm ray' = nth_error norm ray.
Proof.
  intros Hwf Hv Hd Hgeo Hout.
  destruct (register_incoming_ray self ray Hwf Hv Hd)
    as (params & vertices & norm & self' & Hrun & Hvs & Hns & Hp & Hvert & Hnorm).
  exists params, vertices, norm, self'.
  assert (Hrec : trace_ray self v_ray d_ray = miss).
  { unfold trace_ray. rewrite Hgeo. simpl. rewrite Hout. reflexivity. }
  rewrite Hrec in Hp, Hvert, Hnorm. simpl in Hp, Hvert, Hnorm.
  repeat (split; [assumption|]).
  intros ray' v_ray' d_ray' Hv' Hd' Hmiss.
  destruct (register_incoming_ray self ray' Hwf Hv' Hd')
    as (params' & vertices' & norm' & self'' & Hrun' & Hvs' & Hns' & Hp' & Hvert' & Hnorm').
  rewrite Hrun in Hrun'. injection Hrun' as <- <-.
  rewrite Hvs in Hvs'. injection Hvs' as <-.
  rewrite Hns in Hns'. injection Hns' as <-.
  unfold trace_ray in Hp', Hvert', Hnorm'. rewrite Hmiss in Hp', Hvert', Hnorm'.
  simpl in Hp', Hvert', Hnorm'.
  rewrite Hp, Hvert, Hnorm, Hp', Hvert', Hnorm'. auto.
Qed.

(** C9: a call on a bundle of [N >= 1] rays returns the list of the [N]
    parameters and overwrites the cache with the [N] fresh vertex and normal
    columns and the bundle, whatever the cache held before; a second call
    with the same bundle returns the same list and leaves the same cache.
    Whatever the bundle is, also when the call raises, the second call ends
    as the first did. *)
Theorem register_incoming_idempotent (self : SphereSurface T)
    (ray_bundle : RayBundle T (vec3 T)) :
  (let first := register_incoming self ray_bundle in
   let second := register_incoming (after self first) ray_bundle in
   second = first /\ after (after self first) second = after self first) /\
  (well_formed ray_bundle ->
   (1 <= get_num_rays ray_bundle)%nat ->
   exists params vertices norm self',
     register_incoming self ray_bundle = inr (params, self') /\
     params = map (fun r => fst (fst r)) (records self ray_bundle) /\
     vertices = map (fun r => snd (fst r)) (records self ray_bundle) /\
     norm = map snd (records self ray_bundle) /\
     length params = get_num_rays ray_bundle /\
     length vertices = get_num_rays ray_bundle /\
     length norm = get_num_rays ray_bundle /\
     _vertices self' = Some vertices /\
     _norm self' = Some norm /\
     _current_bundle self' = Some ray_bundle /\
     register_incoming self' ray_bundle = inr (params, self') /\
     forall old_vertices old_bundle old_norm,
       register_incoming
         (mkSphereSurface (_rad self) (_center self) (_boundary self) (_abs self)
            (_polar self) (_ref_index self) old_vertices old_bundle old_norm)
         ray_bundle
       = inr (params, self')).
Proof.
  split.
  - simpl.
    destruct (register_incoming self ray_bundle) as [e|[params self']] eqn:Hfirst; simpl.
    + rewrite Hfirst. auto.
    + assert (Hself' : exists vertices norm,
                 self' = mkSphereSurface (_rad self) (_center self) (_boundary self)
                           (_abs self) (_polar self) (_ref_index self)
                           vertices (Some ray_bundle) norm).
      { revert Hfirst. unfold register_incoming.
        destruct (broadcast _ _ _) as [e|B]; simpl; [discriminate|].
        destruct (broadcast _ _ _) as [e|AC]; simpl; [discriminate|].
        destruct (broadcast _ _ _) as [e|delta]; simpl; [discriminate|].
        destruct (for_rays _ _ _) as [e|[[ps vs] ns]]; simpl; [discriminate|].
        destruct (hstack vs) as [e|vs']; simpl; [discriminate|].
        destruct (hstack ns) as [e|ns']; simpl; [discriminate|].
        intros [= <- <-]. eauto. }
      destruct Hself' as (vertices & norm & ->).
      rewrite register_incoming_cache_irrelevant, Hfirst. auto.
  - intros Hwf Hn.
    pose proof (register_incoming_well_formed self Hwf Hn) as Hrun.
    destruct (register_incoming_lengths _ _ Hrun)
      as (Hlen & vertices & norm & Hvs & Hns & _ & Hlv & Hln).
    simpl in Hvs, Hns. injection Hvs as <-. injection Hns as <-.
    do 4 eexists. split; [exact Hrun|].
    do 9 (split; [first [reflexivity | assumption]|]).
    split.
    + rewrite register_incoming_cache_irrelevant. exact Hrun.
    + intros old_vertices old_bundle old_norm.
      rewrite register_incoming_cache_irrelevant. exact Hrun.
Qed.

(** C10, for a bundle with at least one ray: the call returns one parameter
    per ray and caches one vertex column and one normal column per ray, with
    the bundle itself. *)
Theorem register_incoming_one_entry_per_ray (self : SphereSurface T)
    (ray_bundle : RayBundle T (vec3 T)) :
  well_formed ray_bundle ->
  (1 <= get_num_rays ray_bundle)%nat ->
  exists params vertices norm self',
    register_incoming self ray_bundle = inr (params, self') /\
    _vertices self' = Some vertices /\ _norm self' = Some norm /\
    _current_bundle self' = Some ray_bundle /\
    length params = get_num_rays ray_bundle /\
    length vertices = get_num_rays ray_bundle /\
    length norm = get_num_rays ray_bundle /\
    params = map (fun r => fst (fst r)) (records self ray_bundle).
Proof.
  intros Hwf Hn.
  pose proof (register_incoming_well_formed self Hwf Hn) as Hrun.
  destruct (register_incoming_lengths _ _ Hrun)
    as (Hlen & vertices & norm & Hvs & Hns & Hcb & Hlv & Hln).
  simpl in Hvs, Hns, Hcb.
  exists (map (fun r => fst (fst r)) (records self ray_bundle)), vertices, norm.
  eexists. split; [exact Hrun|]. simpl. auto 10.
Qed.
End Records.

(** ** The outgoing bundle *)

Section OutgoingBundle.
Context {T : Type} {num : Number T}.

Variable fresnel :
  RayBundle T (vec3 T) -> list (column T) -> list bool ->
  string -> T -> T -> RayBundle T (column T).

(** Modelled from the spec: [optics.py] is not part of the sources.  The
    optical response returns a bundle with two rays, a reflected and a
    refracted one, for each selected ray. *)
Hypothesis fresnel_doubles :
  forall bundle normals selector polar absorptivity n,
    length (get_directions (fresnel bundle normals selector polar absorptivity n))
    = (2 * count_true selector)%nat.

Lemma compress_length {A : Type} (selector : list bool) :
  forall a : list A,
    length selector = length a ->
    length (compress selector a) = count_true selector.
Proof.
  unfold count_true.
  induction selector as [|b selector IH]; intros [|x a] Hlen; simpl in *;
    try discriminate; try reflexivity.
  injection Hlen as Hlen. destruct b; simpl; rewrite (IH a Hlen); reflexivity.
Qed.

(** C4: after a registered bundle, and for a selector with one entry per
    registered ray, the outgoing bundle has twice as many rays as the
    selector has true entries, and its vertex array is the selected cached
    columns followed by the same columns again. *)
Theorem get_outgoing_doubles_selected (self self' : SphereSurface T)
    (ray_bundle : RayBundle T (vec3 T)) (params : list (param T))
    (selector : list bool) :
  register_incoming self ray_bundle = inr (params, self') ->
  length selector = get_num_rays ray_bundle ->
  exists outg vertices,
    _vertices self' = Some vertices /\
    get_outgoing fresnel self' selector = inr outg /\
    let selected := compress selector vertices in
    let k := count_true selector in
    get_vertices outg = selected ++ selected /\
    length selected = k /\
    get_num_rays outg = (2 * k)%nat /\
    length (get_directions outg) = (2 * k)%nat /\
    firstn k (get_vertices outg) = selected /\
    skipn k (get_vertices outg) = selected.
Proof.
  intros Hrun Hsel.
  destruct (register_incoming_lengths _ _ Hrun)
    as (_ & vertices & norm & Hvs & Hns & Hcb & Hlv & _).
  assert (Hlen : length selector = length vertices) by congruence.
  pose proof (compress_length selector vertices Hlen) as Hk.
  unfold get_outgoing. rewrite Hcb, Hns, Hvs. simpl.
  unfold bool_index. rewrite Hlen, Nat.eqb_refl, orb_true_r. simpl.
  eexists. exists vertices. split; [reflexivity|]. split; [reflexivity|].
  simpl. unfold get_num_rays; simpl.
  rewrite fresnel_doubles, length_app, Hk, <- Hk.
  rewrite firstn_app, skipn_app, Nat.sub_diag, firstn_all, skipn_all; simpl.
  rewrite app_nil_r. repeat split; lia.
Qed.
End OutgoingBundle.

(** ** Runs in float64 *)

Section Float64.
Local Abbreviation F := PrimFloat.float.

Lemma two_per_selected_doubles (bundle : RayBundle F (vec3 F)) normals selector
    polar (absorptivity n : F) :
  length (get_directions (two_per_selected bundle normals selector polar absorptivity n))
  = (2 * count_true selector)%nat.
Proof.
  unfold two_per_selected, count_true; simpl.
  rewrite length_app, length_map. lia.
Qed.

Lemma boundary_rejection_records_miss_witness :
  exists params vertices norm self',
    register_incoming (sphere_at_origin 1 reject_all)
      (single_ray (vecZ 0 0 5) (vecZ 0 0 (-1)) : RayBundle F (vec3 F))
    = inr (params, self') /\
    _vertices self' = Some vertices /\ _norm self' = Some norm /\
    nth_error params 0 = Some inf /\
    nth_error vertices 0 = Some empty_3x1 /\
    nth_error norm 0 = Some empty_3x1.
Proof.
  destruct (@boundary_rejection_records_miss F float64
              (sphere_at_origin 1 reject_all)
              (single_ray (vecZ 0 0 5) (vecZ 0 0 (-1))) 0
              (vecZ 0 0 5) (vecZ 0 0 (-1)) (of_Z 4) (vecZ 0 0 1) (vecZ 0 0 (-1)))
    as (params & vertices & norm & self' & H1 & H2 & H3 & H4 & H5 & H6 & _);
    try reflexivity.
  exists params, vertices, norm, self'. auto 10.
Defined.

Lemma register_incoming_one_entry_per_ray_witness :
  exists params vertices norm self',
    register_incoming (sphere_at_origin 1 accept_all)
      (mkRayBundle [vecZ 0 0 5; vecZ 0 0 5 : vec3 F] [vecZ 0 0 (-1); vecZ 0 0 1])
    = inr (params, self') /\
    _vertices self' = Some vertices /\ _norm self' = Some norm /\
    length params = 2%nat /\ length vertices = 2%nat /\ length norm = 2%nat.
Proof.
  destruct (@register_incoming_one_entry_per_ray F float64
              (sphere_at_origin 1 accept_all)
              (mkRayBundle [vecZ 0 0 5; vecZ 0 0 5] [vecZ 0 0 (-1); vecZ 0 0 1]))
    as (params & vertices & norm & self' & H1 & H2 & H3 & _ & H5 & H6 & H7 & _).
  - reflexivity.
  - unfold get_num_rays; simpl; lia.
  - exists params, vertices, norm, self'. auto 10.
Defined.

Lemma get_outgoing_doubles_selected_witness :
  let self := sphere_at_origin 1 accept_all in
  let ray_bundle := single_ray (vecZ 0 0 5) (vecZ 0 0 (-1)) : RayBundle F (vec3 F) in
  exists outg,
    get_outgoing two_per_selected (after self (register_incoming self ray_bundle)) [true]
    = inr outg /\
    get_vertices outg = [col (vecZ 0 0 1); col (vecZ 0 0 1)] /\
    get_num_rays outg = 2%nat /\
    length (get_directions outg) = 2%nat.
Proof.
  intros self ray_bundle.
  destruct (@get_outgoing_doubles_selected F float64 two_per_selected
              two_per_selected_doubles self
              (after self (register_incoming self ray_bundle)) ray_bundle
              [finite (of_Z 4)] [true])
    as (outg & vertices & Hvs & Hout & Hverts & _ & Hnum & Hdirs & _).
  - reflexivity.
  - reflexivity.
  - exists outg. injection Hvs as <-. auto.
Defined.

(** C10 as stated, for every bundle, fails on the bundle without rays:
    [N.hstack] refuses the empty list, so nothing is returned or cached. *)
Lemma register_incoming_empty_bundle_raises :
  register_incoming (sphere_at_origin 1 accept_all) (empty_bundle : RayBundle F (vec3 F))
  = inl (ValueError "need at least one array to concatenate") /\
  ~ (exists params self',
        register_incoming (sphere_at_origin 1 accept_all)
          (empty_bundle : RayBundle F (vec3 F)) = inr (params, self') /\
        length params = get_num_rays (empty_bundle : RayBundle F (vec3 F))).
Proof.
  split; [reflexivity|].
  intros (params & self' & Hrun & _). discriminate Hrun.
Qed.
End Float64.

(** ** The columns of a hit *)

Section Hits.
Context {T : Type} {num : Number T}.

(** A ray with a finite parameter has the point and the normal of its
    geometry cached, and the boundary accepted the point. *)
Lemma register_incoming_hit (self self' : SphereSurface T)
    (ray_bundle : RayBundle T (vec3 T)) (params : list (param T))
    (ray : nat) (v_ray d_ray : vec3 T) (t : T) :
  well_formed ray_bundle ->
  nth_error (get_vertices ray_bundle) ray = Some v_ray ->
  nth_error (get_directions ray_bundle) ray = Some d_ray ->
  register_incoming self ray_bundle = inr (params, self') ->
  nth_error params ray = Some (finite t) ->
  exists vertices norm verts normal,
    _vertices self' = Some vertices /\ _norm self' = Some norm /\
    nth_error vertices ray = Some (col verts) /\
    nth_error norm ray = Some (col normal) /\
    geometry self v_ray d_ray = Some (t, verts, normal) /\
    in_bounds (_boundary self) verts = true.
Proof.
  intros Hwf Hv Hd Hrun Ht.
  destruct (register_incoming_ray self ray Hwf Hv Hd)
    as (params' & vertices & norm & self'' & Hrun' & Hvs & Hns & Hp & Hvert & Hnorm).
  rewrite Hrun in Hrun'. injection Hrun' as <- <-.
  rewrite Ht in Hp. injection Hp as Hp. symmetry in Hp.
  destruct (trace_ray_finite _ _ _ Hp) as (verts & normal & Hrec & Hgeo & Hin).
  rewrite Hrec in Hvert, Hnorm. simpl in Hvert, Hnorm.
  exists vertices, norm, verts, normal. auto 10.
Qed.

Lemma geometry_shape (self : SphereSurface T) (v_ray d_ray : vec3 T) (t : T)
    (verts normal : vec3 T) :
  geometry self v_ray d_ray = Some (t, verts, normal) ->
  verts = vadd v_ray (vscale d_ray t) /\
  normal = if nle (vdot (vsub (get_center self) verts) d_ray) (of_Z 0)
           then vsub verts (get_center self) else vsub (get_center self) verts.
Proof.
  intros Hgeo. apply geometry_Some in Hgeo as [_ Hhit].
  apply geometric_hit_shape in Hhit. tauto.
Qed.
End Hits.

(** ** Exact arithmetic: root selection and normals *)

Section Exact.
Local Open Scope R_scope.

(** The roots, in the notation of the reals. *)
Lemma root_real (sign : Z) (A_ray B_ray delta_ray : R) :
  root sign A_ray B_ray delta_ray = (- B_ray + IZR sign * sqrt delta_ray) / (2 * A_ray).
Proof. reflexivity. Qed.

Lemma geometry_negative (self : SphereSurface R) (v_ray d_ray : vec3 R) :
  quad_delta (quad_A d_ray) (quad_B (get_center self) d_ray v_ray)
    (quad_C (get_center self) (get_radius self) v_ray) < 0 ->
  geometry self v_ray d_ray = None.
Proof.
  intros Hneg. unfold geometry. cbn [nlt real of_Z].
  apply Rltb_lt in Hneg. rewrite Hneg. reflexivity.
Qed.

Lemma geometry_nonnegative (self : SphereSurface R) (v_ray d_ray : vec3 R) :
  let c := get_center self in
  let A_ray := quad_A d_ray in
  let B_ray := quad_B c d_ray v_ray in
  let delta_ray := quad_delta A_ray B_ray (quad_C c (get_radius self) v_ray) in
  0 <= delta_ray ->
  geometry self v_ray d_ray = geometric_hit c v_ray d_ray A_ray B_ray delta_ray.
Proof.
  intros c A_ray B_ray delta_ray Hpos. unfold geometry. cbn [nlt real of_Z].
  fold c A_ray B_ray delta_ray.
  apply Rltb_ge in Hpos. rewrite Hpos. reflexivity.
Qed.

(** The record of a ray whose geometry selects the root [t]. *)
Lemma hit_record_hit_at (boundary : BoundaryShape R) (c v_ray d_ray : vec3 R) (t : R) :
  in_bounds boundary (vadd v_ray (vscale d_ray t)) = true ->
  fst (fst (hit_record boundary (Some (hit_at c v_ray d_ray t)))) = finite t.
Proof. intros Hin. unfold hit_record, hit_at. rewrite Hin. reflexivity. Qed.

(** C1: the decision table of the root selection.  A negative discriminant
    is a miss; otherwise, of the two roots [(-B -/+ sqrt(delta))/(2A)], none
    is taken when both are <= 0, the positive one when there is exactly one,
    and the smaller one when both are positive; a discriminant of 0 gives the
    double root, which is a hit when it is positive.  A selected root is the
    returned parameter when the boundary accepts its point. *)
Theorem root_selection_table (self : SphereSurface R) (ray_bundle : RayBundle R (vec3 R))
    (ray : nat) (v_ray d_ray : vec3 R) :
  well_formed ray_bundle ->
  nth_error (get_vertices ray_bundle) ray = Some v_ray ->
  nth_error (get_directions ray_bundle) ray = Some d_ray ->
  let c := get_center self in
  let A := quad_A d_ray in
  let B := quad_B c d_ray v_ray in
  let delta := quad_delta A B (quad_C c (get_radius self) v_ray) in
  let t1 := (- B - sqrt delta) / (2 * A) in
  let t2 := (- B + sqrt delta) / (2 * A) in
  let accepted t := in_bounds (_boundary self) (vadd v_ray (vscale d_ray t)) = true in
  exists params self',
    register_incoming self ray_bundle = inr (params, self') /\
    (delta < 0 -> nth_error params ray = Some inf) /\
    (0 <= delta -> t1 <= 0 -> t2 <= 0 -> nth_error params ray = Some inf) /\
    (0 <= delta -> 0 < t1 -> t2 <= 0 -> accepted t1 ->
     nth_error params ray = Some (finite t1)) /\
    (0 <= delta -> t1 <= 0 -> 0 < t2 -> accepted t2 ->
     nth_error params ray = Some (finite t2)) /\
    (0 <= delta -> 0 < t1 -> 0 < t2 -> accepted (Rmin t1 t2) ->
     nth_error params ray = Some (finite (Rmin t1 t2))) /\
    (delta = 0 -> t1 = t2 /\
                  (0 < t1 -> accepted t1 -> nth_error params ray = Some (finite t1))).
Proof.
  intros Hwf Hv Hd c A B delta t1 t2 accepted.
  destruct (register_incoming_ray self ray Hwf Hv Hd)
    as (params & vertices & norm & self' & Hrun & _ & _ & Hp & _ & _).
  exists params, self'. split; [exact Hrun|]. rewrite Hp. unfold trace_ray.
  assert (Ht1 : root (-1) A B delta = t1).
  { rewrite root_real. unfold t1. f_equal. lra. }
  assert (Ht2 : root 1 A B delta = t2).
  { rewrite root_real. unfold t2. f_equal. lra. }
  assert (Hgeo : 0 <= delta ->
                 geometry self v_ray d_ray =
                 match Rltb 0 t1, Rltb 0 t2 with
                 | false, false => None
                 | true, false => Some (hit_at c v_ray d_ray t1)
                 | false, true => Some (hit_at c v_ray d_ray t2)
                 | true, true => Some (hit_at c v_ray d_ray (if Rltb t2 t1 then t2 else t1))
                 end).
  { intros Hpos. rewrite geometry_nonnegative by exact Hpos.
    fold c A B delta. rewrite geometric_hit_cases, Ht1, Ht2. reflexivity. }
  assert (Hboth : 0 <= delta -> 0 < t1 -> 0 < t2 -> accepted (Rmin t1 t2) ->
                  Some (fst (fst (hit_record (_boundary self) (geometry self v_ray d_ray))))
                  = Some (finite (Rmin t1 t2))).
  { intros Hpos H1 H2 Hacc. rewrite Hgeo by exact Hpos.
    apply Rltb_lt in H1, H2. rewrite H1, H2.
    destruct (Rlt_dec t2 t1) as [Hlt|Hge].
    - rewrite (proj2 (Rltb_lt _ _) Hlt).
      rewrite Rmin_right in * by lra. rewrite hit_record_hit_at by exact Hacc. reflexivity.
    - rewrite (proj2 (Rltb_ge _ _)) by lra.
      rewrite Rmin_left in * by lra. rewrite hit_record_hit_at by exact Hacc. reflexivity. }
  assert (Hone : 0 <= delta -> 0 < t1 -> t2 <= 0 -> accepted t1 ->
                 Some (fst (fst (hit_record (_boundary self) (geometry self v_ray d_ray))))
                 = Some (finite t1)).
  { intros Hpos H1 H2 Hacc. rewrite Hgeo by exact Hpos.
    apply Rltb_lt in H1. apply Rltb_ge in H2. rewrite H1, H2.
    rewrite hit_record_hit_at by exact Hacc. reflexivity. }
  repeat split.
  - intros Hneg. rewrite geometry_negative by exact Hneg. reflexivity.
  - intros Hpos H1 H2. rewrite Hgeo by exact Hpos.
    apply Rltb_ge in H1, H2. rewrite H1, H2. reflexivity.
  - exact Hone.
  - intros Hpos H1 H2 Hacc. rewrite Hgeo by exact Hpos.
    apply Rltb_ge in H1. apply Rltb_lt in H2. rewrite H1, H2.
    rewrite hit_record_hit_at by exact Hacc. reflexivity.
  - exact Hboth.
  - unfold t1, t2. rewrite H, sqrt_0. f_equal. lra.
  - intros H1 Hacc.
    assert (t2 = t1) as Heq by (unfold t1, t2; rewrite H, sqrt_0; f_equal; lra).
    assert (Hmin : Rmin t1 t2 = t1) by (rewrite Heq; apply Rmin_left; lra).
    assert (Hb := Hboth). rewrite Hmin in Hb. apply Hb; try lra. exact Hacc.
Qed.

(** C2: the normal cached for a hit at [p] is [p - c] when
    [dot = (c - p) . d] is <= 0 and [c - p] when it is positive; and
    [get_normal] picks between the same two vectors by the sign of the [dot]
    it is given, before it scales its pick. *)
Theorem normal_sign_rule (self self' : SphereSurface R)
    (ray_bundle : RayBundle R (vec3 R)) (params : list (param R))
    (ray : nat) (v_ray d_ray : vec3 R) (t : R) :
  well_formed ray_bundle ->
  nth_error (get_vertices ray_bundle) ray = Some v_ray ->
  nth_error (get_directions ray_bundle) ray = Some d_ray ->
  register_incoming self ray_bundle = inr (params, self') ->
  nth_error params ray = Some (finite t) ->
  let c := get_center self in
  let p := vadd v_ray (vscale d_ray t) in
  let dot := vdot (vsub c p) d_ray in
  (exists vertices norm,
      _vertices self' = Some vertices /\ _norm self' = Some norm /\
      nth_error vertices ray = Some (col p) /\
      (dot <= 0 -> nth_error norm ray = Some (col (vsub p c))) /\
      (0 < dot -> nth_error norm ray = Some (col (vsub c p)))) /\
  (forall dot' hit c',
      (dot' <= 0 ->
       Quadric.get_normal dot' hit c' = vdivs (vsub hit c') (norm2 (vsub hit c'))) /\
      (0 < dot' ->
       Quadric.get_normal dot' hit c' = vdivs (vsub c' hit) (norm2 (vsub c' hit)))).
Proof.
  intros Hwf Hv Hd Hrun Ht c p dot. split.
  - destruct (register_incoming_hit _ _ Hwf Hv Hd Hrun Ht)
      as (vertices & norm & verts & normal & Hvs & Hns & Hvert & Hnorm & Hgeo & _).
    apply geometry_shape in Hgeo as [-> ->].
    fold c p dot in Hnorm, Hvert |- *. cbn [nle real of_Z] in Hnorm.
    exists vertices, norm. repeat split; try assumption.
    + intros Hle. apply Rleb_le in Hle. rewrite Hle in Hnorm. exact Hnorm.
    + intros Hgt. apply Rleb_gt in Hgt. rewrite Hgt in Hnorm. exact Hnorm.
  - intros dot' hit c'. unfold Quadric.get_normal. cbn [nle real of_Z]. split.
    + intros Hle. apply Rleb_le in Hle. rewrite Hle. reflexivity.
    + intros Hgt. apply Rleb_gt in Hgt. rewrite Hgt. reflexivity.
Qed.

(** *** Rays from outside the sphere *)

Lemma quad_A_nonneg (d_ray : vec3 R) : 0 <= quad_A d_ray.
Proof. vec_arith. nra. Qed.

Lemma dot_at_root (c v_ray d_ray : vec3 R) (t : R) :
  vdot (vsub c (vadd v_ray (vscale d_ray t))) d_ray
  = - quad_B c d_ray v_ray / 2 - t * quad_A d_ray.
Proof. vec_arith. field. Qed.





(** *** A ray along the axis *)

(** The ray from [(0,0,5)] in direction [(0,0,-1)] on the sphere of radius
    [rad < 5] at the origin: the roots are [5 - rad] and [5 + rad], the nearer
    one is taken, and [dot = rad] is positive. *)
Lemma axial_ray_record (rad : Z) (boundary : BoundaryShape R) :
  (0 < rad < 5)%Z ->
  in_bounds boundary (vecZ 0 0 rad) = true ->
  trace_ray (sphere_at_origin rad boundary) (vecZ 0 0 5) (vecZ 0 0 (-1))
  = (finite (IZR (5 - rad)), col (vecZ 0 0 rad), col (vecZ 0 0 (- rad))).
Proof.
  intros [Hlo Hhi] Hin. apply IZR_lt in Hlo, Hhi.
  set (self := sphere_at_origin rad boundary).
  set (v := vecZ 0 0 5 : vec3 R). set (d := vecZ 0 0 (-1) : vec3 R).
  set (r := IZR rad) in *.
  assert (HA : quad_A d = 1) by (unfold d; vec_arith; lra).
  assert (HB : quad_B (get_center self) d v = -10)
    by (unfold d, v, self, sphere_at_origin, get_center; vec_arith; lra).
  assert (HC : quad_C (get_center self) (get_radius self) v = 25 - r * r)
    by (unfold v, self, sphere_at_origin, get_center, get_radius; vec_arith; fold r; lra).
  assert (Hdelta : quad_delta (quad_A d) (quad_B (get_center self) d v)
                     (quad_C (get_center self) (get_radius self) v) = (2 * r) * (2 * r)).
  { rewrite HA, HB, HC. unfold quad_delta. cbn [nsub nmul of_Z real]. lra. }
  assert (Hs : sqrt ((2 * r) * (2 * r)) = 2 * r) by (apply sqrt_square; lra).
  assert (Ht1 : root (-1) 1 (-10) ((2 * r) * (2 * r)) = IZR (5 - rad)).
  { rewrite root_real, Hs, minus_IZR. fold r. field. }
  assert (Ht2 : root 1 1 (-10) ((2 * r) * (2 * r)) = 5 + r).
  { rewrite root_real, Hs. field. }
  assert (Hpos : IZR (5 - rad) = 5 - r) by (rewrite minus_IZR; reflexivity).
  unfold trace_ray.
  rewrite geometry_nonnegative by (rewrite Hdelta; nra).
  rewrite Hdelta, HA, HB, geometric_hit_cases, Ht1, Ht2.
  cbn [nlt real of_Z].
  rewrite (proj2 (Rltb_lt 0 (IZR (5 - rad)))) by lra.
  rewrite (proj2 (Rltb_lt 0 (5 + r))) by lra.
  rewrite (proj2 (Rltb_ge (5 + r) (IZR (5 - rad)))) by lra.
  assert (Hp : vadd v (vscale d (IZR (5 - rad))) = vecZ 0 0 rad).
  { unfold v, d. vec_arith. fold r. rewrite Hpos. f_equal; lra. }
  unfold hit_at. rewrite Hp.
  assert (Hdot : vdot (vsub (get_center self) (vecZ 0 0 rad)) d = r).
  { unfold d, self, sphere_at_origin, get_center. vec_arith. fold r. lra. }
  rewrite Hdot. cbn [nle real of_Z]. rewrite (proj2 (Rleb_gt r 0)) by lra.
  unfold hit_record. replace (_boundary self) with boundary by reflexivity.
  rewrite Hin. do 2 f_equal.
  unfold self, sphere_at_origin, get_center. vec_arith. fold r.
  rewrite opp_IZR. fold r. f_equal; lra.
Qed.

Lemma axial_ray_exact (rad : Z) (boundary : BoundaryShape R) :
  (0 < rad < 5)%Z ->
  in_bounds boundary (vecZ 0 0 rad) = true ->
  register_incoming (sphere_at_origin rad boundary)
    (single_ray (vecZ 0 0 5) (vecZ 0 0 (-1)))
  = inr ([finite (IZR (5 - rad))],
         mkSphereSurface (IZR rad) (vecZ 0 0 0) boundary 0 "none" 1
           (Some [col (vecZ 0 0 rad)])
           (Some (single_ray (vecZ 0 0 5) (vecZ 0 0 (-1))))
           (Some [col (vecZ 0 0 (- rad))])).
Proof.
  intros Hrad Hin.
  rewrite register_incoming_well_formed.
  - unfold records, single_ray; simpl. rewrite (axial_ray_record boundary Hrad Hin). reflexivity.
  - reflexivity.
  - unfold get_num_rays; simpl; lia.
Qed.
End Exact.

(** ** The scenarios *)

Section Scenarios.
Local Abbreviation F := PrimFloat.float.

(** Two floats that compare differently are different. *)
Lemma float_ltb_neq (x y z : F) :
  PrimFloat.ltb x z = true -> PrimFloat.ltb y z = false -> x <> y.
Proof. intros Hx Hy ->. congruence. Qed.

(** The unit sphere and the ray from [(0,0,5)] in direction [(0,0,-1)], as
    float64 computes it. *)
Lemma axial_ray_float64 (boundary : BoundaryShape F) :
  in_bounds boundary (vecZ 0 0 1) = true ->
  register_incoming (sphere_at_origin 1 boundary)
    (single_ray (vecZ 0 0 5) (vecZ 0 0 (-1)))
  = inr ([finite (of_Z 4)],
         mkSphereSurface (of_Z 1) (vecZ 0 0 0) boundary (of_Z 0) "none" (of_Z 1)
           (Some [col (vecZ 0 0 1)])
           (Some (single_ray (vecZ 0 0 5) (vecZ 0 0 (-1))))
           (Some [col (vecZ 0 0 (-1))])).
Proof.
  destruct boundary as [f]. cbn [in_bounds]. intros Hin.
  vm_compute in Hin. vm_compute. rewrite Hin. reflexivity.
Qed.

(** C7 as stated, with the normal [(0,0,1)], fails: the cached normal is
    [(0,0,-1)], in exact arithmetic and in float64. *)
Lemma unit_sphere_normal_is_not_up :
  ~ (exists self' : SphereSurface R,
        register_incoming (sphere_at_origin 1 accept_all)
          (single_ray (vecZ 0 0 5) (vecZ 0 0 (-1))) = inr ([finite 4%R], self') /\
        _vertices self' = Some [col (vecZ 0 0 1)] /\
        _norm self' = Some [col (vecZ 0 0 1)]) /\
  ~ (exists self' : SphereSurface F,
        register_incoming (sphere_at_origin 1 accept_all)
          (single_ray (vecZ 0 0 5) (vecZ 0 0 (-1))) = inr ([finite (of_Z 4)], self') /\
        _vertices self' = Some [col (vecZ 0 0 1)] /\
        _norm self' = Some [col (vecZ 0 0 1)]).
Proof.
  split.
  - intros (self' & Hrun & _ & Hnorm).
    rewrite (axial_ray_exact (rad := 1) accept_all) in Hrun by (try reflexivity; lia).
    apply (f_equal (fun r => _norm (after (sphere_at_origin 1 accept_all) r))) in Hrun.
    cbn [after _norm] in Hrun. rewrite <- Hrun in Hnorm.
    apply (f_equal (fun o => match o with Some [col n] => vz n | _ => 0%R end)) in Hnorm.
    cbn in Hnorm. lra.
  - intros (self' & Hrun & _ & Hnorm).
    rewrite (axial_ray_float64 accept_all) in Hrun by reflexivity.
    apply (f_equal (fun r => _norm (after (sphere_at_origin 1 accept_all) r))) in Hrun.
    cbn [after _norm] in Hrun. rewrite <- Hrun in Hnorm.
    apply (f_equal (fun o => match o with Some [col n] => vz n | _ => of_Z 0 end)) in Hnorm.
    revert Hnorm. apply float_ltb_neq with (z := of_Z 0); reflexivity.
Qed.

(** C7, with the normal the code caches: on the unit sphere at the origin
    the ray from [(0,0,5)] in direction [(0,0,-1)], its hit point accepted by
    the boundary, gets [t = 4], the hit point [(0,0,1)] and the normal
    [(0,0,-1)]; float64 computes these values without rounding. *)
Theorem unit_sphere_axial_ray :
  (forall boundary : BoundaryShape R,
      in_bounds boundary (vecZ 0 0 1) = true ->
      exists self',
        register_incoming (sphere_at_origin 1 boundary)
          (single_ray (vecZ 0 0 5) (vecZ 0 0 (-1))) = inr ([finite 4%R], self') /\
        _vertices self' = Some [col (vecZ 0 0 1)] /\
        _norm self' = Some [col (vecZ 0 0 (-1))]) /\
  (forall boundary : BoundaryShape F,
      in_bounds boundary (vecZ 0 0 1) = true ->
      exists self',
        register_incoming (sphere_at_origin 1 boundary)
          (single_ray (vecZ 0 0 5) (vecZ 0 0 (-1))) = inr ([finite (of_Z 4)], self') /\
        _vertices self' = Some [col (vecZ 0 0 1)] /\
        _norm self' = Some [col (vecZ 0 0 (-1))]).
Proof.
  split; intros boundary Hin.
  - rewrite (axial_ray_exact (rad := 1) boundary) by (try assumption; lia).
    eexists. repeat split.
  - rewrite (axial_ray_float64 boundary Hin).
    eexists. repeat split.
Qed.

Lemma unit_sphere_axial_ray_witness :
  exists self' : SphereSurface R,
    register_incoming (sphere_at_origin 1 accept_all)
      (single_ray (vecZ 0 0 5) (vecZ 0 0 (-1))) = inr ([finite 4%R], self') /\
    _vertices self' = Some [col (vecZ 0 0 1)] /\
    _norm self' = Some [col (vecZ 0 0 (-1))].
Proof.
  apply (proj1 unit_sphere_axial_ray accept_all). reflexivity.
Defined.

(** [get_normal] returns a vector of length 1 for a hit point off the centre. *)
Lemma get_normal_unit (dot : R) (hit c : vec3 R) :
  hit <> c -> norm2 (Quadric.get_normal dot hit c) = 1%R.
Proof.
  intros Hne. unfold Quadric.get_normal.
  set (w := if nle dot (of_Z 0) then vsub hit c else vsub c hit).
  assert (Hsq : (0 < sum_axis0 (vmul w w))%R).
  { assert (Hcomp : (vx hit - vx c <> 0 \/ vy hit - vy c <> 0 \/ vz hit - vz c <> 0)%R).
    { destruct (Req_dec (vx hit) (vx c)) as [Hx|Hx]; [|left; lra].
      destruct (Req_dec (vy hit) (vy c)) as [Hy|Hy]; [|right; left; lra].
      destruct (Req_dec (vz hit) (vz c)) as [Hz|Hz]; [|right; right; lra].
      exfalso. apply Hne. destruct hit, c; cbn in *. congruence. }
    assert (Hsqr : forall x : R, x <> 0%R -> (0 < x * x)%R)
      by (intros x Hx; destruct (Rdichotomy _ _ Hx); nra).
    assert (Hx := fun H => Hsqr (vx hit - vx c)%R H).
    assert (Hy := fun H => Hsqr (vy hit - vy c)%R H).
    assert (Hz := fun H => Hsqr (vz hit - vz c)%R H).
    unfold w. destruct (nle dot (of_Z 0)); vec_arith;
      destruct Hcomp as [H|[H|H]];
      [specialize (Hx H) | specialize (Hy H) | specialize (Hz H)
      |specialize (Hx H) | specialize (Hy H) | specialize (Hz H)]; nra. }
  assert (Hn : (0 < norm2 w)%R) by (apply sqrt_lt_R0; exact Hsq).
  assert (Hnn : (norm2 w * norm2 w = sum_axis0 (vmul w w))%R)
    by (apply sqrt_sqrt; lra).
  unfold norm2 at 1.
  replace (sum_axis0 (vmul (vdivs w (norm2 w)) (vdivs w (norm2 w)))) with 1%R;
    [apply sqrt_1|].
  revert Hn Hnn. generalize (norm2 w). intros s Hs Hss.
  revert Hss. vec_arith. intros Hss. field_simplify_eq; [|lra]. lra.
Qed.

(** C6 fails on the sphere of radius 2: [register_incoming] caches the
    normal [(0,0,-2)], of length 2, for the ray from [(0,0,5)] in direction
    [(0,0,-1)], in exact arithmetic and in float64, where [get_normal] returns
    a vector of length 1 for the same hit. *)
Theorem register_incoming_normal_not_unit :
  (let self := sphere_at_origin 2 accept_all : SphereSurface R in
   let ray_bundle := single_ray (vecZ 0 0 5) (vecZ 0 0 (-1)) in
   register_incoming self ray_bundle
   = inr ([finite 3%R],
          mkSphereSurface 2%R (vecZ 0 0 0) accept_all 0%R "none" 1%R
            (Some [col (vecZ 0 0 2)]) (Some ray_bundle) (Some [col (vecZ 0 0 (-2))])) /\
   norm2 (vecZ 0 0 (-2) : vec3 R) = 2%R /\
   norm2 (Quadric.get_normal 2%R (vecZ 0 0 2) (vecZ 0 0 0)) = 1%R) /\
  (let self := sphere_at_origin 2 accept_all : SphereSurface F in
   let ray_bundle := single_ray (vecZ 0 0 5) (vecZ 0 0 (-1)) in
   register_incoming self ray_bundle
   = inr ([finite (of_Z 3)],
          mkSphereSurface (of_Z 2) (vecZ 0 0 0) accept_all (of_Z 0) "none" (of_Z 1)
            (Some [col (vecZ 0 0 2)]) (Some ray_bundle) (Some [col (vecZ 0 0 (-2))])) /\
   norm2 (vecZ 0 0 (-2) : vec3 F) = of_Z 2 /\
   norm2 (Quadric.get_normal (of_Z 2) (vecZ 0 0 2) (vecZ 0 0 0 : vec3 F)) = of_Z 1).
Proof.
  split; cbv zeta.
  - split; [|split].
    + rewrite (axial_ray_exact (rad := 2) accept_all) by (try reflexivity; lia).
      reflexivity.
    + vec_arith. replace (0 * 0 + 0 * 0 + -2 * -2)%R with (2 * 2)%R by lra.
      apply sqrt_square. lra.
    + apply get_normal_unit. intros Heq.
      apply (f_equal (@vz R)) in Heq. cbn in Heq. lra.
  - repeat split.
Qed.


Lemma root_selection_table_witness :
  exists params self',
    register_incoming (sphere_at_origin 1 accept_all : SphereSurface R)
      (single_ray (vecZ 0 0 5) (vecZ 0 0 (-1))) = inr (params, self').
Proof.
  destruct (@root_selection_table (sphere_at_origin 1 accept_all)
              (single_ray (vecZ 0 0 5) (vecZ 0 0 (-1))) 0
              (vecZ 0 0 5) (vecZ 0 0 (-1)))
    as (params & self' & Hrun & _); try reflexivity.
  exists params, self'. exact Hrun.
Defined.

Lemma normal_sign_rule_witness :
  let self := sphere_at_origin 1 accept_all : SphereSurface R in
  let ray_bundle := single_ray (vecZ 0 0 5) (vecZ 0 0 (-1)) in
  exists vertices norm,
    _vertices (after self (register_incoming self ray_bundle)) = Some vertices /\
    _norm (after self (register_incoming self ray_bundle)) = Some norm /\
    nth_error vertices 0
    = Some (col (vadd (vecZ 0 0 5) (vscale (vecZ 0 0 (-1)) 4%R))).
Proof.
  intros self ray_bundle.
  assert (Hrun := axial_ray_exact (rad := 1) accept_all
                    (conj eq_refl eq_refl) eq_refl).
  fold self ray_bundle in Hrun.
  destruct (@normal_sign_rule self _ ray_bundle _ 0
              (vecZ 0 0 5) (vecZ 0 0 (-1)) 4%R eq_refl eq_refl eq_refl Hrun eq_refl)
    as [(vertices & norm & Hvs & Hns & Hvert & _) _].
  exists vertices, norm. rewrite Hrun. cbn [after]. auto.
Defined.

End Scenarios.

(** * Further properties *)

(** ** The protocol: register, then select *)

Section Protocol.
Context {T : Type} {num : Number T}.

Variable fresnel :
  RayBundle T (vec3 T) -> list (column T) -> list bool ->
  string -> T -> T -> RayBundle T (column T).

Lemma hit_record_consistent (boundary : BoundaryShape T)
    (hit : option (T * vec3 T * vec3 T)) :
  consistent (hit_record boundary hit).
Proof.
  unfold consistent, hit_record, miss.
  destruct hit as [[[t verts] normal]|]; [|auto].
  destruct (in_bounds boundary verts); eauto.
Qed.

Lemma records_consistent (self : SphereSurface T) (ray_bundle : RayBundle T (vec3 T)) :
  Forall consistent (records self ray_bundle).
Proof.
  unfold records. apply Forall_forall. intros r Hin.
  apply in_map_iff in Hin as ([v d] & <- & _). apply hit_record_consistent.
Qed.

(** A bundle that a call accepted has a ray. *)
Lemma register_incoming_nonempty (self self' : SphereSurface T)
    (ray_bundle : RayBundle T (vec3 T)) (params : list (param T)) :
  register_incoming self ray_bundle = inr (params, self') ->
  (1 <= get_num_rays ray_bundle)%nat.
Proof.
  intros Hrun. destruct (register_incoming_lengths _ _ Hrun)
    as (_ & vertices & norm & Hvs & _ & _ & Hlen & _).
  revert Hrun Hvs Hlen. unfold register_incoming.
  destruct (broadcast _ _ _) as [e|B]; simpl; [discriminate|].
  destruct (broadcast _ _ _) as [e|AC]; simpl; [discriminate|].
  destruct (broadcast _ _ _) as [e|delta]; simpl; [discriminate|].
  destruct (for_rays _ _ _) as [e|[[ps vs] ns]]; simpl; [discriminate|].
  destruct vs as [|v0 vs]; simpl; [discriminate|].
  destruct ns as [|n0 ns]; simpl; [discriminate|].
  intros [= <- <-]. simpl. intros [= <-]. simpl. lia.
Qed.

(** X1: after a call on a well-formed bundle the returned list and the
    cache agree ray by ray: either the parameter is [N.inf] and both cached
    columns are placeholders, or the parameter is a root [t] that tests
    positive, the cached vertex is [origin + t * direction] and a normal is
    cached with it. *)
Theorem register_incoming_cache_consistent (self self' : SphereSurface T)
    (ray_bundle : RayBundle T (vec3 T)) (params : list (param T))
    (ray : nat) (v_ray d_ray : vec3 T) :
  well_formed ray_bundle ->
  register_incoming self ray_bundle = inr (params, self') ->
  nth_error (get_vertices ray_bundle) ray = Some v_ray ->
  nth_error (get_directions ray_bundle) ray = Some d_ray ->
  exists vertices norm,
    _vertices self' = Some vertices /\ _norm self' = Some norm /\
    ((nth_error params ray = Some inf /\
      nth_error vertices ray = Some empty_3x1 /\
      nth_error norm ray = Some empty_3x1) \/
     (exists t normal,
         nth_error params ray = Some (finite t) /\
         nlt (of_Z 0) t = true /\
         nth_error vertices ray = Some (col (vadd v_ray (vscale d_ray t))) /\
         nth_error norm ray = Some (col normal))).
Proof.
  intros Hwf Hrun Hv Hd.
  destruct (register_incoming_ray self ray Hwf Hv Hd)
    as (params' & vertices & norm & self'' & Hrun' & Hvs & Hns & Hp & Hvert & Hnorm).
  rewrite Hrun in Hrun'. injection Hrun' as <- <-.
  exists vertices, norm. split; [exact Hvs|]. split; [exact Hns|].
  unfold trace_ray in Hp, Hvert, Hnorm.
  destruct (geometry self v_ray d_ray) as [[[t verts] normal]|] eqn:Hgeo;
    [|left; auto].
  simpl in Hp, Hvert, Hnorm.
  destruct (in_bounds (_boundary self) verts); [|left; auto].
  right. exists t, normal.
  destruct (geometry_Some _ _ _ Hgeo) as [_ Hhit].
  apply geometric_hit_shape in Hhit as (_ & Hpos & -> & _). auto.
Qed.

Lemma compress_hits (recs : list (param T * column T * column T)) :
  Forall consistent recs ->
  exists hits : list (vec3 T),
    compress (map is_hit (map (fun r => fst (fst r)) recs))
      (map (fun r => snd (fst r)) recs) = map col hits /\
    forall p, In p hits <-> In (col p) (map (fun r => snd (fst r)) recs).
Proof.
  induction 1 as [|r recs Hr _ (hits & IH & Hin)].
  - exists []. split; [reflexivity|]. intros p. simpl. tauto.
  - destruct Hr as [->|(t & verts & normal & ->)]; simpl.
    + exists hits. split; [exact IH|]. intros p. rewrite Hin.
      split; [auto | intros [Heq|H]; [discriminate | exact H]].
    + exists (verts :: hits). simpl. rewrite IH. split; [reflexivity|].
      intros p. rewrite Hin.
      split; intros [Heq|H]; auto; left; congruence.
Qed.

(** X2: the usual protocol.  After a call on a well-formed bundle, the
    selector that is true where the call returned a root and false where it
    returned [N.inf] is accepted by [get_outgoing]; the vertices of the
    outgoing bundle are the cached vertex columns that selector picks, twice,
    and these are exactly the cached columns with contents: every cached hit
    point is among them and no placeholder is. *)
Theorem get_outgoing_of_hits (self self' : SphereSurface T)
    (ray_bundle : RayBundle T (vec3 T)) (params : list (param T)) :
  well_formed ray_bundle ->
  register_incoming self ray_bundle = inr (params, self') ->
  exists outg vertices hits,
    _vertices self' = Some vertices /\
    get_outgoing fresnel self' (map is_hit params) = inr outg /\
    get_vertices outg = map col hits ++ map col hits /\
    map col hits = compress (map is_hit params) vertices /\
    (forall p, In p hits <-> In (col p) vertices) /\
    length hits = count_true (map is_hit params).
Proof.
  intros Hwf Hrun.
  pose proof (register_incoming_nonempty _ _ Hrun) as Hn.
  rewrite (register_incoming_well_formed self Hwf Hn) in Hrun.
  injection Hrun as <- <-.
  destruct (compress_hits (records_consistent self ray_bundle)) as (hits & Hhits & Hin).
  unfold get_outgoing, bool_index; simpl.
  rewrite !length_map, Nat.eqb_refl, orb_true_r; simpl.
  eexists. exists (map (fun r => snd (fst r)) (records self ray_bundle)), hits.
  split; [reflexivity|]. split; [reflexivity|]. simpl.
  split; [rewrite Hhits; reflexivity|]. split; [symmetry; exact Hhits|].
  split; [exact Hin|].
  rewrite <- (length_map col hits), <- Hhits.
  apply compress_length. rewrite !length_map. reflexivity.
Qed.

(** X3: [get_outgoing] returns a bundle exactly when a bundle was registered
    and the selector is empty or has one entry per cached column.  Before any
    call to [register_incoming] it raises [AttributeError] on
    [_current_bundle]; with a selector of another length that is not empty it
    raises [IndexError]; with the empty selector it returns a bundle without
    vertices. *)
Theorem get_outgoing_succeeds_iff (self : SphereSurface T) (selector : list bool) :
  ((exists outg, get_outgoing fresnel self selector = inr outg) <->
   (exists bundle norm vertices,
       _current_bundle self = Some bundle /\ _norm self = Some norm /\
       _vertices self = Some vertices /\
       (selector = [] \/ length selector = length vertices))) /\
  (_current_bundle self = None ->
   get_outgoing fresnel self selector = inl (AttributeError "_current_bundle")) /\
  (forall bundle norm vertices,
      _current_bundle self = Some bundle -> _norm self = Some norm ->
      _vertices self = Some vertices ->
      selector <> [] -> length selector <> length vertices ->
      get_outgoing fresnel self selector
      = inl (IndexError "boolean index did not match indexed array")) /\
  (forall bundle norm vertices,
      _current_bundle self = Some bundle -> _norm self = Some norm ->
      _vertices self = Some vertices ->
      exists outg,
        get_outgoing fresnel self [] = inr outg /\ get_vertices outg = []).
Proof.
  assert (Hempty : forall l : list bool, Nat.eqb (length l) 0 = true <-> l = []).
  { intros [|b l]; simpl; split; intros H; try reflexivity; discriminate. }
  unfold get_outgoing, bool_index.
  destruct (_current_bundle self) as [bundle|]; simpl.
  2:{ split; [|split; [reflexivity | split; discriminate]].
      split; [intros [outg H]; discriminate | intros (b & n & v & H & _); discriminate]. }
  destruct (_norm self) as [norm|]; simpl.
  2:{ split; [|split; [discriminate | split; discriminate]].
      split; [intros [outg H]; discriminate | intros (b & n & v & _ & H & _); discriminate]. }
  destruct (_vertices self) as [vertices|]; simpl.
  2:{ split; [|split; [discriminate | split; discriminate]].
      split; [intros [outg H]; discriminate | intros (b & n & v & _ & _ & H & _); discriminate]. }
  split; [|split; [discriminate | split]].
  - destruct (Nat.eqb (length selector) 0) eqn:H0;
      destruct (Nat.eqb (length selector) (length vertices)) eqn:Hlen; simpl.
    + split; [intros _|eauto]. exists bundle, norm, vertices.
      apply Nat.eqb_eq in Hlen. auto.
    + split; [intros _|eauto]. exists bundle, norm, vertices.
      apply Hempty in H0. auto.
    + split; [intros _|eauto]. exists bundle, norm, vertices.
      apply Nat.eqb_eq in Hlen. auto.
    + split; [intros [outg H]; discriminate|].
      intros (b & n & v & _ & _ & [= <-] & [Hsel|Heq]).
      * apply Hempty in Hsel. congruence.
      * apply Nat.eqb_neq in Hlen. contradiction.
  - intros b n v _ _ [= <-] Hne Hlen.
    destruct (Nat.eqb (length selector) 0) eqn:H0.
    + apply Hempty in H0. contradiction.
    + apply Nat.eqb_neq in Hlen. rewrite Hlen. reflexivity.
  - intros b n v _ _ _. eexists. split; reflexivity.
Qed.

(** X4: [set_radius] does not touch the cache.  After a new radius is set,
    [get_outgoing] still answers from the intersections that were registered
    with the old radius, until [register_incoming] is called again. *)
Theorem set_radius_keeps_cache (self self' : SphereSurface T) (rad : T)
    (selector : list bool) :
  set_radius self rad = inr self' ->
  get_radius self' = rad /\
  _vertices self' = _vertices self /\
  _norm self' = _norm self /\
  _current_bundle self' = _current_bundle self /\
  get_outgoing fresnel self' selector = get_outgoing fresnel self selector.
Proof.
  unfold set_radius. destruct (nle rad (of_Z 0)); [discriminate|].
  intros [= <-]. repeat split.
Qed.

Lemma combine_app_same {A B : Type} (a1 a2 : list A) (b1 b2 : list B) :
  length a1 = length b1 ->
  combine (a1 ++ a2) (b1 ++ b2) = combine a1 b1 ++ combine a2 b2.
Proof.
  revert b1. induction a1 as [|x a1 IH]; intros [|y b1] Hlen; simpl in *;
    try discriminate; [reflexivity|].
  injection Hlen as Hlen. rewrite (IH b1 Hlen). reflexivity.
Qed.

(** X5: a ray's record does not depend on the rays around it.  The call on
    two well-formed bundles stacked into one returns the parameters of the
    first followed by those of the second, and caches the columns in the same
    order. *)
Theorem register_incoming_bundle_app (self s1 s2 : SphereSurface T)
    (b1 b2 : RayBundle T (vec3 T)) (p1 p2 : list (param T)) :
  well_formed b1 -> well_formed b2 ->
  register_incoming self b1 = inr (p1, s1) ->
  register_incoming self b2 = inr (p2, s2) ->
  exists s vs1 ns1 vs2 ns2,
    _vertices s1 = Some vs1 /\ _norm s1 = Some ns1 /\
    _vertices s2 = Some vs2 /\ _norm s2 = Some ns2 /\
    register_incoming self (bundle_app b1 b2) = inr (p1 ++ p2, s) /\
    _vertices s = Some (vs1 ++ vs2) /\ _norm s = Some (ns1 ++ ns2) /\
    _current_bundle s = Some (bundle_app b1 b2).
Proof.
  intros Hwf1 Hwf2 Hrun1 Hrun2.
  pose proof (register_incoming_nonempty _ _ Hrun1) as Hn1.
  pose proof (register_incoming_nonempty _ _ Hrun2) as Hn2.
  rewrite (register_incoming_well_formed self Hwf1 Hn1) in Hrun1.
  rewrite (register_incoming_well_formed self Hwf2 Hn2) in Hrun2.
  injection Hrun1 as <- <-. injection Hrun2 as <- <-.
  assert (Hwf : well_formed (bundle_app b1 b2)).
  { unfold well_formed, bundle_app in *; simpl. rewrite !length_app. congruence. }
  assert (Hn : (1 <= get_num_rays (bundle_app b1 b2))%nat).
  { unfold get_num_rays, bundle_app in *; simpl. rewrite length_app. lia. }
  assert (Hrecs : records self (bundle_app b1 b2) = records self b1 ++ records self b2).
  { unfold records, bundle_app; simpl.
    rewrite combine_app_same by exact Hwf1. apply map_app. }
  rewrite (register_incoming_well_formed self Hwf Hn), Hrecs, !map_app.
  do 5 eexists. simpl. repeat split.
Qed.
End Protocol.

(** ** Exact arithmetic: where the rays hit *)

Section Geometry.
Local Open Scope R_scope.

(** The polynomial whose roots the code computes: the squared distance of
    the point at parameter [t] from the centre, less the squared radius. *)
Lemma quadric_polynomial (c v_ray d_ray : vec3 R) (rad t : R) :
  let p := vadd v_ray (vscale d_ray t) in
  vdot (vsub p c) (vsub p c) - rad * rad
  = quad_A d_ray * t * t + quad_B c d_ray v_ray * t + quad_C c rad v_ray.
Proof. vec_arith. ring. Qed.

(** Both entries of [hits] are roots of the polynomial, where [A] is not 0. *)
Lemma root_is_root (sign : Z) (A B C : R) :
  sign = (-1)%Z \/ sign = 1%Z ->
  A <> 0 -> 0 <= quad_delta A B C ->
  let t := root sign A B (quad_delta A B C) in
  A * t * t + B * t + C = 0.
Proof.
  intros Hsign HA Hdelta t.
  assert (Hss := sqrt_sqrt _ Hdelta).
  assert (Ht : t * (2 * A) = - B + IZR sign * sqrt (quad_delta A B C)).
  { unfold t. rewrite root_real. field. exact HA. }
  set (s := sqrt (quad_delta A B C)) in *.
  assert (Hsq : IZR sign * IZR sign = 1) by (destruct Hsign as [-> | ->]; lra).
  assert (H4 : 4 * A * (A * t * t + B * t + C) = 0).
  { replace (4 * A * (A * t * t + B * t + C))
      with ((t * (2 * A)) * (t * (2 * A)) + 2 * B * (t * (2 * A)) + 4 * A * C) by ring.
    rewrite Ht.
    replace ((- B + IZR sign * s) * (- B + IZR sign * s) + 2 * B * (- B + IZR sign * s)
             + 4 * A * C)
      with ((IZR sign * IZR sign) * (s * s) - B * B + 4 * A * C) by ring.
    rewrite Hsq, Hss. unfold quad_delta. cbn [nsub nmul of_Z real]. ring. }
  apply Rmult_integral in H4 as [H4|H4]; [lra | exact H4].
Qed.

(** A positive entry of [hits] has a divisor that is not 0. *)
Lemma positive_root_divides (sign : Z) (A B delta : R) :
  0 < root sign A B delta -> A <> 0.
Proof.
  rewrite root_real. intros Hpos ->.
  unfold Rdiv in Hpos. rewrite Rmult_0_r, Rinv_0, Rmult_0_r in Hpos. lra.
Qed.

(** What the geometry of a hit satisfies. *)
Lemma geometry_hit_exact (self : SphereSurface R) (v_ray d_ray : vec3 R)
    (t : R) (verts normal : vec3 R) :
  geometry self v_ray d_ray = Some (t, verts, normal) ->
  let c := get_center self in
  0 < t /\ 0 < quad_A d_ray /\
  verts = vadd v_ray (vscale d_ray t) /\
  quad_A d_ray * t * t + quad_B c d_ray v_ray * t
  + quad_C c (get_radius self) v_ray = 0 /\
  (normal = vsub verts c \/ normal = vsub c verts) /\
  0 <= vdot normal d_ray.
Proof.
  intros Hgeo c.
  destruct (geometry_shape _ _ _ Hgeo) as [Hverts Hnormal].
  destruct (geometry_Some _ _ _ Hgeo) as [Hdelta Hhit]. fold c in Hdelta, Hhit, Hnormal.
  cbn [nlt real of_Z] in Hdelta. apply Rltb_ge in Hdelta.
  apply geometric_hit_shape in Hhit as (Hroot & Hpos & _ & _).
  cbn [nlt real of_Z] in Hpos. apply Rltb_lt in Hpos.
  assert (HA : quad_A d_ray <> 0).
  { destruct Hroot as [-> | ->]; eapply positive_root_divides; exact Hpos. }
  assert (HApos := quad_A_nonneg d_ray).
  split; [exact Hpos|]. split; [lra|]. split; [exact Hverts|]. split.
  - destruct Hroot as [-> | ->]; apply root_is_root; auto.
  - cbn [nle real of_Z] in Hnormal.
    assert (Hflip : vdot (vsub verts c) d_ray = - vdot (vsub c verts) d_ray)
      by (vec_arith; ring).
    destruct (Rle_dec (vdot (vsub c verts) d_ray) 0) as [Hle|Hgt].
    + rewrite (proj2 (Rleb_le _ _) Hle) in Hnormal. subst normal.
      split; [auto | rewrite Hflip; lra].
    + rewrite (proj2 (Rleb_gt _ _)) in Hnormal by lra. subst normal.
      split; [auto | lra].
Qed.

(** X6: geometric soundness of a hit.  For every ray with a finite
    parameter [t]: [t] is positive, the cached hit point is
    [origin + t * direction] and lies on the sphere, the cached normal has the
    length of the radius (it is not scaled to 1) and does not point against
    the ray. *)
Theorem register_incoming_hit_on_sphere (self self' : SphereSurface R)
    (ray_bundle : RayBundle R (vec3 R)) (params : list (param R))
    (ray : nat) (v_ray d_ray : vec3 R) (t : R) :
  well_formed ray_bundle ->
  nth_error (get_vertices ray_bundle) ray = Some v_ray ->
  nth_error (get_directions ray_bundle) ray = Some d_ray ->
  register_incoming self ray_bundle = inr (params, self') ->
  nth_error params ray = Some (finite t) ->
  let c := get_center self in
  exists vertices norm p n,
    _vertices self' = Some vertices /\ _norm self' = Some norm /\
    nth_error vertices ray = Some (col p) /\
    nth_error norm ray = Some (col n) /\
    0 < t /\
    p = vadd v_ray (vscale d_ray t) /\
    vdot (vsub p c) (vsub p c) = get_radius self * get_radius self /\
    norm2 n = Rabs (get_radius self) /\
    0 <= vdot n d_ray.
Proof.
  intros Hwf Hv Hd Hrun Ht c.
  destruct (register_incoming_hit _ _ Hwf Hv Hd Hrun Ht)
    as (vertices & norm & verts & normal & Hvs & Hns & Hvert & Hnorm & Hgeo & _).
  destruct (geometry_hit_exact _ _ _ Hgeo) as (Hpos & _ & Hp & Hquad & Hn & Hdot).
  fold c in Hquad, Hn.
  exists vertices, norm, verts, normal.
  do 4 (split; [assumption|]). split; [exact Hpos|]. split; [exact Hp|].
  assert (Hsphere : vdot (vsub verts c) (vsub verts c)
                    = get_radius self * get_radius self).
  { pose proof (quadric_polynomial c v_ray d_ray (get_radius self) t) as Hpoly.
    cbv zeta in Hpoly. rewrite <- Hp in Hpoly. lra. }
  split; [exact Hsphere|]. split; [|exact Hdot].
  assert (Hnn : sum_axis0 (vmul normal normal) = Rsqr (get_radius self)).
  { unfold Rsqr. rewrite <- Hsphere. destruct Hn as [-> | ->]; vec_arith; ring. }
  unfold norm2. cbn [nsqrt real]. rewrite Hnn. apply sqrt_Rsqr_abs.
Qed.

(** The record of a ray, by the two roots. *)
Lemma trace_ray_by_roots (self : SphereSurface R) (v_ray d_ray : vec3 R) :
  let c := get_center self in
  let A := quad_A d_ray in
  let B := quad_B c d_ray v_ray in
  let delta := quad_delta A B (quad_C c (get_radius self) v_ray) in
  let t1 := root (-1) A B delta in
  let t2 := root 1 A B delta in
  0 <= delta ->
  trace_ray self v_ray d_ray =
  hit_record (_boundary self)
    match Rltb 0 t1, Rltb 0 t2 with
    | false, false => None
    | true, false => Some (hit_at c v_ray d_ray t1)
    | false, true => Some (hit_at c v_ray d_ray t2)
    | true, true => Some (hit_at c v_ray d_ray (if Rltb t2 t1 then t2 else t1))
    end.
Proof.
  intros c A B delta t1 t2 Hdelta. unfold trace_ray.
  rewrite geometry_nonnegative by exact Hdelta.
  fold c A B delta. rewrite geometric_hit_cases. reflexivity.
Qed.

(** X7: a ray that starts inside the sphere.  With a direction that is not
    zero, the discriminant is positive, the smaller root is negative and the
    larger one positive; the larger one is returned when the boundary accepts
    its point, and the cached normal there is [p - c], pointing out of the
    sphere. *)
Theorem inside_ray_hits_far_side (self : SphereSurface R)
    (ray_bundle : RayBundle R (vec3 R)) (ray : nat) (v_ray d_ray : vec3 R) :
  well_formed ray_bundle ->
  nth_error (get_vertices ray_bundle) ray = Some v_ray ->
  nth_error (get_directions ray_bundle) ray = Some d_ray ->
  let c := get_center self in
  let A := quad_A d_ray in
  let B := quad_B c d_ray v_ray in
  let delta := quad_delta A B (quad_C c (get_radius self) v_ray) in
  let t := (- B + sqrt delta) / (2 * A) in
  let p := vadd v_ray (vscale d_ray t) in
  0 < A ->
  vdot (vsub v_ray c) (vsub v_ray c) < get_radius self * get_radius self ->
  in_bounds (_boundary self) p = true ->
  exists params vertices norm self',
    register_incoming self ray_bundle = inr (params, self') /\
    _vertices self' = Some vertices /\ _norm self' = Some norm /\
    0 < delta /\ (- B - sqrt delta) / (2 * A) < 0 /\ 0 < t /\
    nth_error params ray = Some (finite t) /\
    nth_error vertices ray = Some (col p) /\
    nth_error norm ray = Some (col (vsub p c)).
Proof.
  intros Hwf Hv Hd c A B delta t p HA Hin Hacc.
  destruct (register_incoming_ray self ray Hwf Hv Hd)
    as (params & vertices & norm & self' & Hrun & Hvs & Hns & Hp & Hvert & Hnorm).
  exists params, vertices, norm, self'. do 3 (split; [assumption|]).
  set (C := quad_C c (get_radius self) v_ray) in *.
  assert (HC : C < 0) by (unfold C, quad_C; cbn [nsub nmul real]; unfold vdot in Hin; lra).
  assert (Hdelta_eq : delta = B * B - 4 * A * C) by reflexivity.
  assert (Hdelta : 0 < delta) by (rewrite Hdelta_eq; nra).
  assert (Hs := sqrt_lt_R0 delta Hdelta).
  assert (Hss := sqrt_sqrt delta (Rlt_le _ _ Hdelta)).
  set (s := sqrt delta) in *.
  assert (HsB : B < s /\ - B < s) by (split; nra).
  assert (Hinv : 0 < / (2 * A)) by (apply Rinv_0_lt_compat; lra).
  assert (Ht1 : root (-1) A B delta = (- B - s) / (2 * A))
    by (rewrite root_real; fold s; f_equal; lra).
  assert (Ht2 : root 1 A B delta = t)
    by (rewrite root_real; unfold t; fold s; f_equal; lra).
  assert (Hneg : (- B - s) / (2 * A) < 0) by (unfold Rdiv; nra).
  assert (Hpos : 0 < t) by (unfold t, Rdiv; fold s; nra).
  split; [exact Hdelta|]. split; [exact Hneg|]. split; [exact Hpos|].
  assert (Hrec : trace_ray self v_ray d_ray = (finite t, col p, col (vsub p c))).
  { rewrite trace_ray_by_roots by (fold c A B C delta; lra).
    fold c A B C delta. rewrite Ht1, Ht2.
    rewrite (proj2 (Rltb_ge 0 ((- B - s) / (2 * A)))) by lra.
    rewrite (proj2 (Rltb_lt 0 t)) by lra.
    unfold hit_record, hit_at. fold p. rewrite Hacc.
    assert (Hdot : vdot (vsub c p) d_ray = - s / 2).
    { unfold p. rewrite dot_at_root. fold A B. unfold t. fold s. field. lra. }
    rewrite Hdot. cbn [nle real of_Z].
    rewrite (proj2 (Rleb_le (- s / 2) 0)) by lra. reflexivity. }
  rewrite Hrec in Hp, Hvert, Hnorm. auto.
Qed.

(** X8: a ray that starts outside the sphere and does not point towards the
    centre ([0 <= d . (v - c)]) misses, whatever the boundary is: its
    parameter is [N.inf] and nothing is cached for it. *)
Theorem outside_ray_pointing_away_misses (self : SphereSurface R)
    (ray_bundle : RayBundle R (vec3 R)) (ray : nat) (v_ray d_ray : vec3 R) :
  well_formed ray_bundle ->
  nth_error (get_vertices ray_bundle) ray = Some v_ray ->
  nth_error (get_directions ray_bundle) ray = Some d_ray ->
  let c := get_center self in
  get_radius self * get_radius self < vdot (vsub v_ray c) (vsub v_ray c) ->
  0 <= vdot d_ray (vsub v_ray c) ->
  exists params vertices norm self',
    register_incoming self ray_bundle = inr (params, self') /\
    _vertices self' = Some vertices /\ _norm self' = Some norm /\
    nth_error params ray = Some inf /\
    nth_error vertices ray = Some empty_3x1 /\
    nth_error norm ray = Some empty_3x1.
Proof.
  intros Hwf Hv Hd c Hout Haway.
  destruct (register_incoming_ray self ray Hwf Hv Hd)
    as (params & vertices & norm & self' & Hrun & Hvs & Hns & Hp & Hvert & Hnorm).
  exists params, vertices, norm, self'. do 3 (split; [assumption|]).
  assert (Hrec : trace_ray self v_ray d_ray = miss).
  { set (A := quad_A d_ray). set (B := quad_B c d_ray v_ray).
    set (C := quad_C c (get_radius self) v_ray).
    set (delta := quad_delta A B C).
    assert (HC : 0 < C)
      by (unfold C, quad_C; cbn [nsub nmul real]; unfold vdot in Hout; lra).
    assert (HB : 0 <= B)
      by (unfold B, quad_B; cbn [nmul of_Z real]; unfold vdot in Haway; lra).
    assert (HA := quad_A_nonneg d_ray). fold A in HA.
    destruct (Rlt_dec delta 0) as [Hneg|Hnn].
    { unfold trace_ray. rewrite geometry_negative by exact Hneg. reflexivity. }
    assert (Hdelta : 0 <= delta) by lra.
    assert (Hdelta_eq : delta = B * B - 4 * A * C) by reflexivity.
    assert (Hs := sqrt_pos delta). assert (Hss := sqrt_sqrt delta Hdelta).
    rewrite trace_ray_by_roots by exact Hdelta. fold c A B C delta.
    assert (Hroots : root (-1) A B delta <= 0 /\ root 1 A B delta <= 0).
    { rewrite !root_real. set (s := sqrt delta) in *.
      destruct (Req_dec A 0) as [HA0|HA0].
      - rewrite HA0. unfold Rdiv. rewrite Rmult_0_r, Rinv_0, !Rmult_0_r. lra.
      - assert (Hinv : 0 < / (2 * A)) by (apply Rinv_0_lt_compat; lra).
        assert (Hlt : s <= B) by nra.
        unfold Rdiv. split; nra. }
    destruct Hroots as [H1 H2].
    rewrite (proj2 (Rltb_ge 0 _) H1), (proj2 (Rltb_ge 0 _) H2). reflexivity. }
  rewrite Hrec in Hp, Hvert, Hnorm. auto.
Qed.

(** X9: a ray with a direction of length 1 that passes through the centre,
    from a distance [dist] larger than the radius.  The roots are
    [dist - radius] and [dist + radius]; the call returns [dist - radius]
    when the boundary accepts the hit point. *)
Theorem ray_through_center (self : SphereSurface R)
    (ray_bundle : RayBundle R (vec3 R)) (ray : nat) (v_ray d_ray : vec3 R)
    (dist : R) :
  well_formed ray_bundle ->
  nth_error (get_vertices ray_bundle) ray = Some v_ray ->
  nth_error (get_directions ray_bundle) ray = Some d_ray ->
  vdot d_ray d_ray = 1 ->
  get_center self = vadd v_ray (vscale d_ray dist) ->
  0 < get_radius self < dist ->
  let t := dist - get_radius self in
  let p := vadd v_ray (vscale d_ray t) in
  in_bounds (_boundary self) p = true ->
  exists params vertices norm self',
    register_incoming self ray_bundle = inr (params, self') /\
    _vertices self' = Some vertices /\ _norm self' = Some norm /\
    root (-1) (quad_A d_ray) (quad_B (get_center self) d_ray v_ray)
      (quad_delta (quad_A d_ray) (quad_B (get_center self) d_ray v_ray)
         (quad_C (get_center self) (get_radius self) v_ray)) = t /\
    root 1 (quad_A d_ray) (quad_B (get_center self) d_ray v_ray)
      (quad_delta (quad_A d_ray) (quad_B (get_center self) d_ray v_ray)
         (quad_C (get_center self) (get_radius self) v_ray)) = dist + get_radius self /\
    nth_error params ray = Some (finite t) /\
    nth_error vertices ray = Some (col p).
Proof.
  intros Hwf Hv Hd Hunit Hc [Hr Hdist] t p Hacc.
  destruct (register_incoming_ray self ray Hwf Hv Hd)
    as (params & vertices & norm & self' & Hrun & Hvs & Hns & Hp & Hvert & Hnorm).
  exists params, vertices, norm, self'. do 3 (split; [assumption|]).
  set (c := get_center self) in *. set (r := get_radius self) in *.
  assert (HA : quad_A d_ray = 1) by exact Hunit.
  assert (HB : quad_B c d_ray v_ray = - 2 * dist).
  { rewrite Hc. transitivity (- 2 * dist * vdot d_ray d_ray); [|rewrite Hunit; ring].
    vec_arith. ring. }
  assert (HC : quad_C c r v_ray = dist * dist - r * r).
  { rewrite Hc.
    transitivity (dist * dist * vdot d_ray d_ray - r * r); [|rewrite Hunit; ring].
    vec_arith. ring. }
  assert (Hdelta : quad_delta (quad_A d_ray) (quad_B c d_ray v_ray) (quad_C c r v_ray)
                   = (2 * r) * (2 * r)).
  { rewrite HA, HB, HC. unfold quad_delta. cbn [nsub nmul of_Z real]. ring. }
  assert (Hs : sqrt ((2 * r) * (2 * r)) = 2 * r) by (apply sqrt_square; lra).
  assert (Ht1 : root (-1) 1 (- 2 * dist) ((2 * r) * (2 * r)) = t).
  { rewrite root_real, Hs. unfold t. field. }
  assert (Ht2 : root 1 1 (- 2 * dist) ((2 * r) * (2 * r)) = dist + r).
  { rewrite root_real, Hs. field. }
  rewrite Hdelta, HA, HB. split; [exact Ht1|]. split; [exact Ht2|].
  assert (Hrec : fst (fst (trace_ray self v_ray d_ray)) = finite t /\
                 snd (fst (trace_ray self v_ray d_ray)) = col p).
  { rewrite trace_ray_by_roots by (fold c r; rewrite Hdelta; nra).
    fold c r. rewrite Hdelta, HA, HB, Ht1, Ht2.
    rewrite (proj2 (Rltb_lt 0 t)) by (unfold t; lra).
    rewrite (proj2 (Rltb_lt 0 (dist + r))) by lra.
    rewrite (proj2 (Rltb_ge (dist + r) t)) by (unfold t; lra).
    unfold hit_record, hit_at. fold p. rewrite Hacc. auto. }
  destruct Hrec as [Hrec1 Hrec2]. rewrite Hrec1 in Hp. rewrite Hrec2 in Hvert. auto.
Qed.
End Geometry.

(** ** The quadric sphere: coefficients, normal and frame *)

Section Shapes.
Context {T : Type} {num : Number T}.

Lemma broadcast_mismatch {A B C : Type} (f : A -> B -> C) (a : list A) (b : list B) :
  length a <> length b -> length a <> 1%nat -> length b <> 1%nat ->
  broadcast f a b
  = inl (ValueError "shape mismatch: objects cannot be broadcast to a single shape").
Proof.
  intros Hne Ha Hb. unfold broadcast.
  apply Nat.eqb_neq in Hne. rewrite Hne.
  destruct a as [|x [|x' a]]; destruct b as [|y [|y' b]]; simpl in *;
    try reflexivity; try (exfalso; apply Ha; reflexivity);
    try (exfalso; apply Hb; reflexivity).
Qed.

(** X10: a bundle whose direction and vertex arrays have different numbers
    of columns, neither of them a single column, is refused at the first
    array operation: [get_ABC] and [register_incoming] both raise
    [ValueError], and [register_incoming] caches nothing. *)
Theorem mismatched_bundle_raises (self : SphereSurface T) (q : Quadric.SphereSurface T)
    (ray_bundle : RayBundle T (vec3 T)) :
  length (get_directions ray_bundle) <> length (get_vertices ray_bundle) ->
  length (get_directions ray_bundle) <> 1%nat ->
  length (get_vertices ray_bundle) <> 1%nat ->
  Quadric.get_ABC q ray_bundle
  = inl (ValueError "shape mismatch: objects cannot be broadcast to a single shape") /\
  register_incoming self ray_bundle
  = inl (ValueError "shape mismatch: objects cannot be broadcast to a single shape") /\
  after self (register_incoming self ray_bundle) = self.
Proof.
  intros Hne Hd Hv.
  assert (Hreg : register_incoming self ray_bundle
                 = inl (ValueError
                          "shape mismatch: objects cannot be broadcast to a single shape")).
  { unfold register_incoming. rewrite broadcast_mismatch by assumption. reflexivity. }
  split; [|split].
  - unfold Quadric.get_ABC. rewrite broadcast_mismatch by assumption. reflexivity.
  - exact Hreg.
  - rewrite Hreg. reflexivity.
Qed.

(** X11: [transform_frame] starts from the location of the surface each
    time: a second call replaces what the first one left, it does not add to
    it.  A call leaves the radius and the location as they were, writes the
    new centre into column 3 of the frame and leaves the other columns of the
    frame alone. *)
Theorem transform_frame_overwrites (self : Frame.SphereSurface T)
    (first second : Frame.mat4 T) :
  Frame.transform_frame (Frame.transform_frame self first) second
  = Frame.transform_frame self second /\
  Frame._rad (Frame.transform_frame self second) = Frame._rad self /\
  Frame._loc (Frame.transform_frame self second) = Frame._loc self /\
  Frame.column3 (Frame._temp_frame (Frame.transform_frame self second))
  = Frame._temp_loc (Frame.transform_frame self second) /\
  (forall v,
      Frame.set_column3 (Frame._temp_frame (Frame.transform_frame self second)) v
      = Frame.set_column3 (Frame._temp_frame self) v).
Proof.
  repeat split.
Qed.
End Shapes.

Section QuadricExact.
Local Open Scope R_scope.

(** X12: on a well-formed bundle [get_ABC] returns three arrays with one
    entry per ray, the coefficients of the ray's quadratic: for every [t],
    [A t^2 + B t + C] is the squared distance of [origin + t * direction]
    from the centre, less the squared radius.  [A] is never negative. *)
Theorem get_ABC_quadric_equation (self : Quadric.SphereSurface R)
    (ray_bundle : RayBundle R (vec3 R)) :
  well_formed ray_bundle ->
  exists A B C,
    Quadric.get_ABC self ray_bundle = inr (A, B, C) /\
    length A = get_num_rays ray_bundle /\
    length B = get_num_rays ray_bundle /\
    length C = get_num_rays ray_bundle /\
    forall ray v_ray d_ray,
      nth_error (get_vertices ray_bundle) ray = Some v_ray ->
      nth_error (get_directions ray_bundle) ray = Some d_ray ->
      exists a b c,
        nth_error A ray = Some a /\ nth_error B ray = Some b /\
        nth_error C ray = Some c /\ 0 <= a /\
        forall t,
          let p := vadd v_ray (vscale d_ray t) in
          a * t * t + b * t + c
          = vdot (vsub p (Quadric._temp_loc self)) (vsub p (Quadric._temp_loc self))
            - Quadric.get_radius self * Quadric.get_radius self.
Proof.
  destruct ray_bundle as [v d]. unfold well_formed, get_num_rays; simpl. intros Hwf.
  unfold Quadric.get_ABC; simpl.
  rewrite broadcast_same_length by auto. simpl.
  do 3 eexists. split; [reflexivity|].
  rewrite !length_map, length_combine.
  split; [lia|]. split; [lia|]. split; [lia|].
  intros ray v_ray d_ray Hv Hd.
  exists (quad_A d_ray), (quad_B (Quadric._temp_loc self) d_ray v_ray),
    (quad_C (Quadric._temp_loc self) (Quadric.get_radius self) v_ray).
  rewrite !nth_error_map, Hv, Hd.
  replace (nth_error (combine d v) ray) with (Some (d_ray, v_ray))
    by (symmetry; apply nth_error_combine; auto).
  simpl. repeat split; [apply quad_A_nonneg|].
  intros t. cbv zeta.
  pose proof (quadric_polynomial (Quadric._temp_loc self) v_ray d_ray
                (Quadric.get_radius self) t) as Hpoly.
  cbv zeta in Hpoly. symmetry. exact Hpoly.
Qed.

Lemma offset_square_positive (hit c : vec3 R) :
  hit <> c -> 0 < sum_axis0 (vmul (vsub hit c) (vsub hit c)).
Proof.
  intros Hne.
  assert (Hsqr : forall x : R, x <> 0 -> 0 < x * x)
    by (intros x Hx; destruct (Rdichotomy _ _ Hx); nra).
  assert (Hnn : forall x : R, 0 <= x * x) by (intros x; nra).
  destruct (Req_dec (vx hit) (vx c)) as [Hx|Hx].
  - destruct (Req_dec (vy hit) (vy c)) as [Hy|Hy].
    + destruct (Req_dec (vz hit) (vz c)) as [Hz|Hz].
      * exfalso. apply Hne. destruct hit, c; cbn in *. congruence.
      * assert (H := Hsqr (vz hit - vz c) ltac:(lra)).
        assert (H1 := Hnn (vx hit - vx c)). assert (H2 := Hnn (vy hit - vy c)).
        vec_arith. lra.
    + assert (H := Hsqr (vy hit - vy c) ltac:(lra)).
      assert (H1 := Hnn (vx hit - vx c)). assert (H2 := Hnn (vz hit - vz c)).
      vec_arith. lra.
  - assert (H := Hsqr (vx hit - vx c) ltac:(lra)).
    assert (H1 := Hnn (vy hit - vy c)). assert (H2 := Hnn (vz hit - vz c)).
    vec_arith. lra.
Qed.

(** X13: for a hit point that is not the centre, [get_normal] returns a
    vector of length 1 along the line through the centre and the hit point:
    pointing out of the sphere when [dot <= 0] and into it when [dot > 0]. *)
Theorem get_normal_unit_oriented (dot : R) (hit c : vec3 R) :
  hit <> c ->
  let n := Quadric.get_normal dot hit c in
  norm2 n = 1 /\
  (dot <= 0 -> vdot n (vsub hit c) = norm2 (vsub hit c)) /\
  (0 < dot -> vdot n (vsub hit c) = - norm2 (vsub hit c)) /\
  0 < norm2 (vsub hit c).
Proof.
  intros Hne n. split; [apply get_normal_unit; exact Hne|].
  assert (Hsq := offset_square_positive Hne).
  assert (Hn : 0 < norm2 (vsub hit c)) by (apply sqrt_lt_R0; exact Hsq).
  assert (Hnn : norm2 (vsub hit c) * norm2 (vsub hit c)
                = sum_axis0 (vmul (vsub hit c) (vsub hit c)))
    by (apply sqrt_sqrt; lra).
  assert (Hflip : norm2 (vsub c hit) = norm2 (vsub hit c)).
  { unfold norm2. f_equal. vec_arith. ring. }
  split; [|split; [|exact Hn]].
  - intros Hle. unfold n, Quadric.get_normal. cbn [nle real of_Z].
    rewrite (proj2 (Rleb_le _ _) Hle).
    revert Hn Hnn. generalize (norm2 (vsub hit c)). intros s Hs Hss.
    revert Hss. vec_arith. intros Hss. field_simplify_eq; [|lra]. lra.
  - intros Hgt. unfold n, Quadric.get_normal. cbn [nle real of_Z].
    rewrite (proj2 (Rleb_gt _ _) Hgt), Hflip.
    revert Hn Hnn. generalize (norm2 (vsub hit c)). intros s Hs Hss.
    revert Hss. vec_arith. intros Hss. field_simplify_eq; [|lra]. lra.
Qed.

(** X14: the centre that [get_ABC] uses after [transform_frame].  A
    translation moves it to the location of the surface plus the translation
    vector, and the transform that moves nothing leaves it at the location;
    the radius is that of the surface. *)
Theorem transform_frame_translation (self : Frame.SphereSurface R) (tx ty tz : R) :
  let moved := Frame.quadric (Frame.transform_frame self (Frame.translation tx ty tz)) in
  let same := Frame.quadric (Frame.transform_frame self Frame.identity) in
  Quadric._temp_loc moved = vadd (Frame._loc self) (Vec tx ty tz) /\
  Frame.h3 (Frame._temp_loc (Frame.transform_frame self (Frame.translation tx ty tz))) = 1 /\
  Quadric._temp_loc same = Frame._loc self /\
  Quadric.get_radius moved = Frame._rad self.
Proof.
  cbv zeta.
  unfold Frame.quadric, Frame.transform_frame, Frame.identity, Frame.translation,
    Frame.mat_vec, Frame.dot4, Frame.homogeneous, Frame.first3, Quadric.get_radius, vadd.
  destruct self as [rad [x y z] temp_loc frame].
  cbn [Frame._temp_loc Frame._loc Frame._rad Frame.h0 Frame.h1 Frame.h2 Frame.h3
       Frame.row0 Frame.row1 Frame.row2 Frame.row3 Quadric._temp_loc Quadric._rad
       vx vy vz of_Z nadd nmul real].
  repeat split; try (f_equal; lra); lra.
Qed.
End QuadricExact.

(** ** Instances of the further properties *)

Section Instances.
Local Abbreviation F := PrimFloat.float.

Lemma register_incoming_idempotent_witness :
  let self := sphere_at_origin 1 accept_all : SphereSurface F in
  let ray_bundle := single_ray (vecZ 0 0 5) (vecZ 0 0 (-1)) in
  exists params self',
    register_incoming self ray_bundle = inr (params, self') /\
    length params = 1%nat /\
    _current_bundle self' = Some ray_bundle /\
    register_incoming self' ray_bundle = inr (params, self').
Proof.
  intros self ray_bundle.
  destruct (proj2 (@register_incoming_idempotent F float64 self ray_bundle))
    as (params & vertices & norm & self' & Hrun & _ & _ & _ & Hlen & _ & _ & _ & _
        & Hcb & Hagain & _).
  - reflexivity.
  - unfold get_num_rays; simpl; lia.
  - exists params, self'. auto.
Defined.

Lemma register_incoming_cache_consistent_witness :
  let self := sphere_at_origin 1 accept_all : SphereSurface F in
  let ray_bundle := single_ray (vecZ 0 0 5) (vecZ 0 0 (-1)) in
  exists vertices norm,
    _vertices (after self (register_incoming self ray_bundle)) = Some vertices /\
    _norm (after self (register_incoming self ray_bundle)) = Some norm.
Proof.
  intros self ray_bundle.
  destruct (@register_incoming_cache_consistent F float64 self
              (after self (register_incoming self ray_bundle)) ray_bundle
              [finite (of_Z 4)] 0 (vecZ 0 0 5) (vecZ 0 0 (-1)))
    as (vertices & norm & Hvs & Hns & _); try reflexivity.
  exists vertices, norm. auto.
Defined.

Lemma get_outgoing_of_hits_witness :
  let self := sphere_at_origin 1 accept_all : SphereSurface F in
  let ray_bundle :=
    mkRayBundle [vecZ 0 0 5; vecZ 0 0 5] [vecZ 0 0 (-1); vecZ 0 0 1] in
  exists outg hits,
    get_outgoing two_per_selected (after self (register_incoming self ray_bundle))
      [true; false] = inr outg /\
    get_vertices outg = map col hits ++ map col hits /\
    length hits = 1%nat.
Proof.
  intros self ray_bundle.
  destruct (@get_outgoing_of_hits F float64 two_per_selected self
              (after self (register_incoming self ray_bundle)) ray_bundle
              [finite (of_Z 4); inf])
    as (outg & vertices & hits & _ & Hout & Hverts & _ & _ & Hlen);
    try reflexivity.
  exists outg, hits. auto.
Defined.

Lemma get_outgoing_succeeds_iff_witness :
  get_outgoing two_per_selected (sphere_at_origin 1 accept_all : SphereSurface F) [true]
  = inl (AttributeError "_current_bundle").
Proof.
  apply (proj1 (proj2 (@get_outgoing_succeeds_iff F two_per_selected
                         (sphere_at_origin 1 accept_all) [true]))).
  reflexivity.
Defined.

Lemma set_radius_keeps_cache_witness :
  let self := sphere_at_origin 1 accept_all : SphereSurface F in
  let ray_bundle := single_ray (vecZ 0 0 5) (vecZ 0 0 (-1)) in
  let registered := after self (register_incoming self ray_bundle) in
  let changed := after registered
                   (bind (set_radius registered (of_Z 3)) (fun s => ret (tt, s))) in
  get_radius changed = of_Z 3 /\
  get_outgoing two_per_selected changed [true]
  = get_outgoing two_per_selected registered [true].
Proof.
  intros self ray_bundle registered changed.
  destruct (@set_radius_keeps_cache F float64 two_per_selected registered changed
              (of_Z 3) [true]) as (Hrad & _ & _ & _ & Hout).
  - reflexivity.
  - split; [exact Hrad | exact Hout].
Defined.

Lemma register_incoming_bundle_app_witness :
  let self := sphere_at_origin 1 accept_all : SphereSurface F in
  let b1 := single_ray (vecZ 0 0 5) (vecZ 0 0 (-1)) in
  let b2 := single_ray (vecZ 0 0 5) (vecZ 0 0 1) in
  exists s,
    register_incoming self (bundle_app b1 b2) = inr ([finite (of_Z 4)] ++ [inf], s).
Proof.
  intros self b1 b2.
  destruct (@register_incoming_bundle_app F float64 self
              (after self (register_incoming self b1))
              (after self (register_incoming self b2)) b1 b2
              [finite (of_Z 4)] [inf])
    as (s & vs1 & ns1 & vs2 & ns2 & _ & _ & _ & _ & Hrun & _); try reflexivity.
  exists s. exact Hrun.
Defined.

Lemma mismatched_bundle_raises_witness :
  register_incoming (sphere_at_origin 1 accept_all : SphereSurface F)
    (mkRayBundle [vecZ 0 0 5; vecZ 0 0 5; vecZ 0 0 5] [vecZ 0 0 1; vecZ 0 0 1])
  = inl (ValueError "shape mismatch: objects cannot be broadcast to a single shape").
Proof.
  apply (@mismatched_bundle_raises F float64 (sphere_at_origin 1 accept_all)
           (Quadric.mkSphereSurface (of_Z 1) (vecZ 0 0 0))
           (mkRayBundle [vecZ 0 0 5; vecZ 0 0 5; vecZ 0 0 5] [vecZ 0 0 1; vecZ 0 0 1]));
    simpl; lia.
Defined.

Lemma register_incoming_hit_on_sphere_witness :
  let self := sphere_at_origin 2 accept_all : SphereSurface R in
  let ray_bundle := single_ray (vecZ 0 0 5) (vecZ 0 0 (-1)) in
  exists vertices norm p n,
    _vertices (after self (register_incoming self ray_bundle)) = Some vertices /\
    _norm (after self (register_incoming self ray_bundle)) = Some norm /\
    nth_error vertices 0 = Some (col p) /\
    nth_error norm 0 = Some (col n) /\
    vdot (vsub p (get_center self)) (vsub p (get_center self))
    = (get_radius self * get_radius self)%R /\
    norm2 n = Rabs (get_radius self).
Proof.
  intros self ray_bundle.
  assert (Hrun := axial_ray_exact (rad := 2) accept_all (conj eq_refl eq_refl) eq_refl).
  fold self ray_bundle in Hrun.
  destruct (@register_incoming_hit_on_sphere self _ ray_bundle _ 0
              (vecZ 0 0 5) (vecZ 0 0 (-1)) 3%R eq_refl eq_refl eq_refl Hrun eq_refl)
    as (vertices & norm & p & n & Hvs & Hns & Hvert & Hnorm & _ & _ & Hon & Hlen & _).
  exists vertices, norm, p, n. rewrite Hrun. cbn [after]. auto 10.
Defined.

Lemma inside_ray_hits_far_side_witness :
  exists params self',
    register_incoming (sphere_at_origin 1 accept_all : SphereSurface R)
      (single_ray (vecZ 0 0 0) (vecZ 1 0 0)) = inr (params, self').
Proof.
  destruct (@inside_ray_hits_far_side (sphere_at_origin 1 accept_all)
              (single_ray (vecZ 0 0 0) (vecZ 1 0 0)) 0 (vecZ 0 0 0) (vecZ 1 0 0)
              eq_refl eq_refl eq_refl)
    as (params & vertices & norm & self' & Hrun & _).
  - vec_arith. lra.
  - vec_arith. lra.
  - reflexivity.
  - exists params, self'. exact Hrun.
Defined.

Lemma outside_ray_pointing_away_misses_witness :
  exists params self',
    register_incoming (sphere_at_origin 1 accept_all : SphereSurface R)
      (single_ray (vecZ 0 0 5) (vecZ 0 0 1)) = inr (params, self') /\
    nth_error params 0 = Some inf.
Proof.
  destruct (@outside_ray_pointing_away_misses (sphere_at_origin 1 accept_all)
              (single_ray (vecZ 0 0 5) (vecZ 0 0 1)) 0 (vecZ 0 0 5) (vecZ 0 0 1)
              eq_refl eq_refl eq_refl)
    as (params & vertices & norm & self' & Hrun & _ & _ & Hp & _).
  - vec_arith. lra.
  - vec_arith. lra.
  - exists params, self'. auto.
Defined.

Lemma ray_through_center_witness :
  exists params self',
    register_incoming (sphere_at_origin 1 accept_all : SphereSurface R)
      (single_ray (vecZ 0 0 5) (vecZ 0 0 (-1))) = inr (params, self') /\
    nth_error params 0 = Some (finite (5 - 1)%R).
Proof.
  destruct (@ray_through_center (sphere_at_origin 1 accept_all)
              (single_ray (vecZ 0 0 5) (vecZ 0 0 (-1))) 0 (vecZ 0 0 5) (vecZ 0 0 (-1))
              5%R eq_refl eq_refl eq_refl)
    as (params & vertices & norm & self' & Hrun & _ & _ & _ & _ & Hp & _).
  - vec_arith. lra.
  - vec_arith. f_equal; lra.
  - vec_arith. lra.
  - reflexivity.
  - exists params, self'. auto.
Defined.

Lemma get_ABC_quadric_equation_witness :
  exists A B C,
    Quadric.get_ABC (Quadric.mkSphereSurface 1%R (vecZ 0 0 0))
      (single_ray (vecZ 0 0 5) (vecZ 0 0 (-1))) = inr (A, B, C) /\
    length A = 1%nat.
Proof.
  destruct (@get_ABC_quadric_equation (Quadric.mkSphereSurface 1%R (vecZ 0 0 0))
              (single_ray (vecZ 0 0 5) (vecZ 0 0 (-1))) eq_refl)
    as (A & B & C & Hrun & HA & _).
  exists A, B, C. auto.
Defined.

Lemma get_normal_unit_oriented_witness :
  norm2 (Quadric.get_normal 1%R (vecZ 0 0 1) (vecZ 0 0 0)) = 1%R.
Proof.
  apply (@get_normal_unit_oriented 1%R (vecZ 0 0 1) (vecZ 0 0 0)).
  intros Heq. apply (f_equal (@vz R)) in Heq. cbn in Heq. lra.
Defined.
End Instances.
